(** * RemoteAudioIO: the remote audio transport and session manager

    A shallow embedding of [src/glados/audio_io/remote_io.py].

    The Python object [RemoteAudioIO] becomes a record of its attributes;
    everything its methods touch outside the object (frames written to a
    websocket, coroutines handed to [asyncio.create_task], started
    [threading.Timer]s, calls of the VAD model, log lines) is collected in
    a [world] record that the methods pass along explicitly.  A method that
    can raise returns a [result] next to the world it leaves behind. *)

From Stdlib Require Import ZArith QArith PrimFloat FloatOps SpecFloat.
From Stdlib Require Import String Ascii List Bool Lia.
From stdpp Require Import base decidable countable strings gmap sets list.

Set Default Proof Using "Type".
Set Warnings "-register-all,-clear-no-such-hyp".
Local Open Scope Z_scope.

(** ** Python values that cross the interface *)

(** The exception classes that occur in the module. *)
Inductive exn : Type :=
  | ValueError
  | JSONDecodeError      (* a subclass of ValueError, listed on its own in the handler *)
  | UnicodeDecodeError   (* a subclass of ValueError *)
  | KeyError
  | TypeError
  | AttributeError
  | OverflowError
  | ZeroDivisionError
  | RuntimeError
  | RecursionError       (* a subclass of RuntimeError *)
  | ConnectionClosed.    (* websockets.exceptions.ConnectionClosed *)

Inductive result (A : Type) : Type :=
  | Ok (a : A)
  | Raise (e : exn).
Arguments Ok {A} a.
Arguments Raise {A} e.

(** What [json.loads] builds: None, bool, number, str, list, dict.  A dict
    is kept as its list of items. *)
Inductive json : Type :=
  | JNull
  | JBool (b : bool)
  | JNum (x : float)
  | JStr (s : string)
  | JArr (items : list json)
  | JObj (fields : list (string * json)).

(** A frame as it arrives, seen through [json.loads], which either
    builds a value or raises:
    - [JSONDecodeError] when the text is not a JSON document;
    - [UnicodeDecodeError] when a binary frame is not UTF-8, UTF-16 or
      UTF-32;
    - [ValueError] when an integer literal has more digits than the
      interpreter converts (4300 by default);
    - [RecursionError] when arrays or objects are nested deeper than the
      interpreter's recursion limit allows, whether or not the text is a
      JSON document. *)
Inductive message : Type :=
  | NotJson (text : string)
  | NotUnicode (payload : list Z)
  | HugeInteger (text : string)
  | TooDeep (text : string)
  | Json (value : json).

Definition json_loads (m : message) : result json :=
  match m with
  | NotJson _ => Raise JSONDecodeError
  | NotUnicode _ => Raise UnicodeDecodeError
  | HugeInteger _ => Raise ValueError
  | TooDeep _ => Raise RecursionError
  | Json v => Ok v
  end.

(** numpy arrays: element type, shape and the flattened elements. *)
Inductive dtype : Type := float32 | float64 | int16 | int64.

Record ndarray : Type := mk_ndarray {
  nd_dtype : dtype;
  nd_shape : list nat;
  nd_data : list float
}.

Definition is_floating (d : dtype) : bool :=
  match d with float32 | float64 => true | int16 | int64 => false end.

(** [a.size]: the product of the dimensions (1 for a 0-d array). *)
Definition nd_size (a : ndarray) : nat := fold_right Nat.mul 1%nat (nd_shape a).

(** [len(a)]: the first dimension; [TypeError] ("len() of unsized
    object") for a 0-d array. *)
Definition nd_len (a : ndarray) : result nat :=
  match nd_shape a with
  | [] => Raise TypeError
  | n :: _ => Ok n
  end.

(** [np.expand_dims(a, 0)]. *)
Definition expand_dims0 (a : ndarray) : ndarray :=
  mk_ndarray (nd_dtype a) (1%nat :: nd_shape a) (nd_data a).

(** The objects a caller may hand to [start_speaking] as [audio_data]. *)
Inductive pyobject : Type :=
  | PyNone
  | PyList (items : list float)
  | PyArray (a : ndarray).

(** ** The wire *)

Definition websocket := nat.

(** The dicts the server serialises with [json.dumps]. *)
Inductive frame : Type :=
  | FError (msg : string)
  | FConfig (sample_rate chunk_size : Z) (format : string)
  | FPong
  | FAudioPlayback (data : ndarray) (sample_rate : Z) (text : string)
  | FStopPlayback.

Inductive wire_event : Type :=
  | Sent (f : frame)     (* an awaited websocket.send returned *)
  | Closed.              (* an awaited websocket.close returned *)

(** Coroutines handed to [asyncio.create_task]. *)
Inductive task : Type :=
  | TaskSend (ws : websocket) (f : frame)
  | TaskClose (ws : websocket).

Inductive log_entry : Type :=
  | LogSuccessStarted (port : Z)
  | LogSuccessWaiting
  | LogInfoConnected (ws : websocket)
  | LogInfoDisconnected (ws : websocket)
  | LogInfoServerStarted (port : Z)
  | LogInfoStopped
  | LogWarningProcessing (ws : websocket) (e : exn)
  | LogWarningNoClients
  | LogErrorHandling (ws : websocket) (e : exn)
  | LogDebugBroadcasting (n : nat).

(** ** The object and its surroundings *)

Module Const.
Definition SAMPLE_RATE : Z := 16000.
Definition VAD_SIZE : Z := 32.
(* 0.8, written as the binary64 value Python reads it as *)
Definition VAD_THRESHOLD : float := 0x1.999999999999ap-1%float.
Definition WS_PORT : Z := 8765.
Definition MAX_CLIENTS : nat := 10.
Definition AUDIO_CHUNK_SIZE : Z := 1024.
End Const.
Import Const.

Record RemoteAudioIO : Type := mk_io {
  vad_threshold : float;
  ws_port : Z;
  _sample_queue : list (ndarray * bool);
  _is_listening : bool;
  _is_playing : bool;
  _stop_event : bool;
  _ws_server : bool;               (* false: None, true: the server returned by websockets.serve *)
  _ws_thread : bool;               (* false: None, true: the started thread *)
  _clients : gset websocket
}.

Record world : Type := mk_world {
  self : RemoteAudioIO;
  closed : gset websocket;         (* connections that are closed: by the peer, by the
                                      module, or by the server once the handler returned *)
  wire : list (websocket * wire_event);   (* what the module's own sends and closes wrote *)
  tasks : list task;
  timers : list Q;                 (* intervals of the started timers that have not fired *)
  streaming : gset websocket;      (* handlers suspended in their [async for] *)
  vad_calls : list ndarray;
  log : list log_entry
}.

(** ** Construction *)

(** [RemoteAudioIO.__init__]. *)
Definition __init__ (vad_threshold : option float) (ws_port : option Z)
  : result RemoteAudioIO :=
  let t := match vad_threshold with None => VAD_THRESHOLD | Some t => t end in
  let p := match ws_port with None => WS_PORT | Some p => p end in
  if negb (PrimFloat.leb 0 t && PrimFloat.leb t 1) then Raise ValueError
  else Ok {| vad_threshold := t; ws_port := p;
             _sample_queue := []; _is_listening := false; _is_playing := false;
             _stop_event := false; _ws_server := false; _ws_thread := false;
             _clients := ∅ |}.

Definition initial_world (io : RemoteAudioIO) : world :=
  {| self := io; closed := ∅; wire := []; tasks := []; timers := [];
     streaming := ∅; vad_calls := []; log := [] |}.

(** ** Attribute updates *)

Definition with_self (f : RemoteAudioIO -> RemoteAudioIO) (w : world) : world :=
  {| self := f (self w); closed := closed w; wire := wire w; tasks := tasks w;
     timers := timers w; streaming := streaming w; vad_calls := vad_calls w;
     log := log w |}.

Definition set_clients (c : gset websocket) (io : RemoteAudioIO) : RemoteAudioIO :=
  {| vad_threshold := vad_threshold io; ws_port := ws_port io;
     _sample_queue := _sample_queue io; _is_listening := _is_listening io;
     _is_playing := _is_playing io; _stop_event := _stop_event io;
     _ws_server := _ws_server io; _ws_thread := _ws_thread io; _clients := c |}.

Definition set_is_playing (b : bool) (io : RemoteAudioIO) : RemoteAudioIO :=
  {| vad_threshold := vad_threshold io; ws_port := ws_port io;
     _sample_queue := _sample_queue io; _is_listening := _is_listening io;
     _is_playing := b; _stop_event := _stop_event io;
     _ws_server := _ws_server io; _ws_thread := _ws_thread io;
     _clients := _clients io |}.

Definition set_is_listening (b : bool) (io : RemoteAudioIO) : RemoteAudioIO :=
  {| vad_threshold := vad_threshold io; ws_port := ws_port io;
     _sample_queue := _sample_queue io; _is_listening := b;
     _is_playing := _is_playing io; _stop_event := _stop_event io;
     _ws_server := _ws_server io; _ws_thread := _ws_thread io;
     _clients := _clients io |}.

Definition set_stop_event (b : bool) (io : RemoteAudioIO) : RemoteAudioIO :=
  {| vad_threshold := vad_threshold io; ws_port := ws_port io;
     _sample_queue := _sample_queue io; _is_listening := _is_listening io;
     _is_playing := _is_playing io; _stop_event := b;
     _ws_server := _ws_server io; _ws_thread := _ws_thread io;
     _clients := _clients io |}.

Definition set_ws_server (b : bool) (io : RemoteAudioIO) : RemoteAudioIO :=
  {| vad_threshold := vad_threshold io; ws_port := ws_port io;
     _sample_queue := _sample_queue io; _is_listening := _is_listening io;
     _is_playing := _is_playing io; _stop_event := _stop_event io;
     _ws_server := b; _ws_thread := _ws_thread io; _clients := _clients io |}.

Definition set_ws_thread (b : bool) (io : RemoteAudioIO) : RemoteAudioIO :=
  {| vad_threshold := vad_threshold io; ws_port := ws_port io;
     _sample_queue := _sample_queue io; _is_listening := _is_listening io;
     _is_playing := _is_playing io; _stop_event := _stop_event io;
     _ws_server := _ws_server io; _ws_thread := b; _clients := _clients io |}.

(** [self._sample_queue.put(entry)] *)
Definition queue_put (entry : ndarray * bool) (io : RemoteAudioIO) : RemoteAudioIO :=
  {| vad_threshold := vad_threshold io; ws_port := ws_port io;
     _sample_queue := _sample_queue io ++ [entry];
     _is_listening := _is_listening io;
     _is_playing := _is_playing io; _stop_event := _stop_event io;
     _ws_server := _ws_server io; _ws_thread := _ws_thread io;
     _clients := _clients io |}.

Definition logger (e : log_entry) (w : world) : world :=
  {| self := self w; closed := closed w; wire := wire w; tasks := tasks w;
     timers := timers w; streaming := streaming w; vad_calls := vad_calls w;
     log := log w ++ [e] |}.

Definition add_wire (ws : websocket) (e : wire_event) (w : world) : world :=
  {| self := self w; closed := closed w; wire := wire w ++ [(ws, e)];
     tasks := tasks w; timers := timers w; streaming := streaming w;
     vad_calls := vad_calls w; log := log w |}.

Definition set_closed (c : gset websocket) (w : world) : world :=
  {| self := self w; closed := c; wire := wire w; tasks := tasks w;
     timers := timers w; streaming := streaming w; vad_calls := vad_calls w;
     log := log w |}.

Definition set_streaming (c : gset websocket) (w : world) : world :=
  {| self := self w; closed := closed w; wire := wire w; tasks := tasks w;
     timers := timers w; streaming := c; vad_calls := vad_calls w;
     log := log w |}.

Definition add_tasks (ts : list task) (w : world) : world :=
  {| self := self w; closed := closed w; wire := wire w; tasks := tasks w ++ ts;
     timers := timers w; streaming := streaming w; vad_calls := vad_calls w;
     log := log w |}.

Definition set_timers (ts : list Q) (w : world) : world :=
  {| self := self w; closed := closed w; wire := wire w; tasks := tasks w;
     timers := ts; streaming := streaming w; vad_calls := vad_calls w;
     log := log w |}.

Definition add_vad_call (a : ndarray) (w : world) : world :=
  {| self := self w; closed := closed w; wire := wire w; tasks := tasks w;
     timers := timers w; streaming := streaming w;
     vad_calls := vad_calls w ++ [a]; log := log w |}.

(** ** The websocket and asyncio primitives *)

(** [await websocket.send(json.dumps(f))]: raises [ConnectionClosed] on a
    closed connection. *)
Definition ws_send (ws : websocket) (f : frame) (w : world) : result unit * world :=
  if decide (ws ∈ closed w) then (Raise ConnectionClosed, w)
  else (Ok tt, add_wire ws (Sent f) w).

(** [await websocket.close()]: nothing happens on a closed connection. *)
Definition ws_close (ws : websocket) (w : world) : world :=
  if decide (ws ∈ closed w) then w
  else set_closed ({[ws]} ∪ closed w) (add_wire ws Closed w).

(** [asyncio.create_task(coro)] raises [RuntimeError] ("no running event
    loop") when the calling thread runs no event loop, and schedules the
    coroutine otherwise.  [in_loop] says which thread the caller is. *)
Definition create_task (in_loop : bool) (t : task) (w : world) : result unit * world :=
  if in_loop then (Ok tt, add_tasks [t] w) else (Raise RuntimeError, w).

(** [asyncio.create_task(None)]: the running loop is looked up first
    ([RuntimeError] without one), then the argument is refused with
    [TypeError] ("a coroutine was expected, got None"). *)
Definition create_task_none (in_loop : bool) : exn :=
  if in_loop then TypeError else RuntimeError.

(** ** Dict access on decoded JSON *)

Fixpoint assoc (k : string) (items : list (string * json)) : option json :=
  match items with
  | [] => None
  | (k', v) :: rest => if String.eqb k k' then Some v else assoc k rest
  end.

(** [data.get(k)]: only a dict has [get]; on any other value the
    attribute lookup raises [AttributeError]. *)
Definition py_get (data : json) (k : string) : result (option json) :=
  match data with
  | JObj items => Ok (assoc k items)
  | _ => Raise AttributeError
  end.

(** [data[k]] on a dict. *)
Definition py_getitem (data : json) (k : string) : result json :=
  match data with
  | JObj items =>
      match assoc k items with
      | Some v => Ok v
      | None => Raise KeyError
      end
  | _ => Raise TypeError
  end.

(** [v == s] for the result [v] of a [get] and a str literal [s]. *)
Definition py_eq_str (v : option json) (s : string) : bool :=
  match v with
  | Some (JStr s') => String.eqb s' s
  | _ => false
  end.

(** ** Playback state queries *)

(** [RemoteAudioIO.check_if_speaking] *)
Definition check_if_speaking (w : world) : bool := _is_playing (self w).

(** [RemoteAudioIO.measure_percentage_spoken] *)
Definition measure_percentage_spoken (total_samples : Z) (sample_rate : option Z)
    (w : world) : bool * Z :=
  let sample_rate := match sample_rate with None => SAMPLE_RATE | Some r => r end in
  let interrupted := negb (_is_playing (self w)) in
  let percentage_played := if negb (_is_playing (self w)) then 100 else 0 in
  (interrupted, percentage_played).

(** [RemoteAudioIO.get_connected_clients] *)
Definition get_connected_clients (w : world) : nat := size (_clients (self w)).

(** [RemoteAudioIO.get_sample_queue] *)
Definition get_sample_queue (w : world) : list (ndarray * bool) :=
  _sample_queue (self w).

(** [RemoteAudioIO._on_playback_complete] *)
Definition _on_playback_complete (w : world) : world :=
  with_self (set_is_playing false) w.

(** The [i]-th pending timer fires and runs its callback. *)
Definition timer_fires (i : nat) (w : world) : world :=
  match timers w !! i with
  | None => w
  | Some _ => _on_playback_complete (set_timers (delete i (timers w)) w)
  end.

(** ** Broadcasting *)

(** The loop [for client in self._clients: try: create_task(client.send(..))
    except: disconnected_clients.add(client)]. *)
Fixpoint broadcast_loop (in_loop : bool) (f : frame) (cs : list websocket)
    (disconnected_clients : gset websocket) (w : world) : gset websocket * world :=
  match cs with
  | [] => (disconnected_clients, w)
  | client :: rest =>
      match create_task in_loop (TaskSend client f) w with
      | (Ok _, w') => broadcast_loop in_loop f rest disconnected_clients w'
      | (Raise _, w') =>
          broadcast_loop in_loop f rest ({[client]} ∪ disconnected_clients) w'
      end
  end.

(** The broadcast loop followed by the removal of the clients it collected. *)
Definition broadcast (in_loop : bool) (f : frame) (w : world) : world :=
  let '(disconnected_clients, w') :=
    broadcast_loop in_loop f (elements (_clients (self w))) ∅ w in
  with_self (fun io => set_clients (_clients io ∖ disconnected_clients) io) w'.

(** [RemoteAudioIO.stop_speaking] *)
Definition stop_speaking (in_loop : bool) (w : world) : world :=
  if _is_playing (self w) then
    broadcast in_loop FStopPlayback (with_self (set_is_playing false) w)
  else w.

(** [RemoteAudioIO.start_speaking] *)
Definition start_speaking (in_loop : bool) (audio_data : pyobject)
    (sample_rate : option Z) (text : string) (w : world) : result unit * world :=
  match audio_data with
  | PyArray a =>
      if (nd_size a =? 0)%nat then (Raise ValueError, w)
      else
        let sample_rate :=
          match sample_rate with None => SAMPLE_RATE | Some r => r end in
        let w := stop_speaking in_loop w in
        let w := logger (LogDebugBroadcasting (size (_clients (self w)))) w in
        let w := with_self (set_is_playing true) w in
        if decide (_clients (self w) = ∅) then
          (Ok tt, with_self (set_is_playing false) (logger LogWarningNoClients w))
        else
          let w := broadcast in_loop (FAudioPlayback a sample_rate text) w in
          match nd_len a with
          | Raise e => (Raise e, w)
          | Ok n =>
              if sample_rate =? 0 then (Raise ZeroDivisionError, w)
              else
                let playback_duration :=
                  (inject_Z (Z.of_nat n) / inject_Z sample_rate)%Q in
                (Ok tt, set_timers (timers w ++ [playback_duration]) w)
          end
  | _ => (Raise ValueError, w)
  end.

(** ** Listening *)

(** [RemoteAudioIO.start_listening] *)
Definition start_listening (w : world) : world :=
  if _is_listening (self w) then w
  else
    let w := with_self (set_is_listening true) w in
    let w := with_self (set_stop_event false) w in
    let w := with_self (set_ws_thread true) w in
    let w := logger (LogSuccessStarted (ws_port (self w))) w in
    logger LogSuccessWaiting w.

(** [server_wrapper] up to its polling loop: the server is bound and
    stored. *)
Definition server_wrapper (w : world) : world :=
  logger (LogInfoServerStarted (ws_port (self w))) (with_self (set_ws_server true) w).

(** The loop [for client in self._clients.copy(): try:
    create_task(client.close()) except: pass]. *)
Fixpoint close_all (in_loop : bool) (cs : list websocket) (w : world) : world :=
  match cs with
  | [] => w
  | client :: rest => close_all in_loop rest (snd (create_task in_loop (TaskClose client) w))
  end.

(** [RemoteAudioIO.stop_listening].

    In [asyncio.create_task(self._ws_server.close())] the argument is
    evaluated first.  [close] of the websockets server is a plain method:
    it starts the shutdown inside the server, which is outside this
    model, and returns [None].  So [create_task] is given [None] and the
    statement raises whenever the server is up; the [join] and the last
    log line are then not reached.  With no server the [join] on the
    server thread changes none of the attributes. *)
Definition stop_listening (in_loop : bool) (w : world) : result unit * world :=
  if negb (_is_listening (self w)) then (Ok tt, w)
  else
    let w := with_self (set_is_listening false) w in
    let w := with_self (set_stop_event true) w in
    let w := close_all in_loop (elements (_clients (self w))) w in
    let w := with_self (set_clients ∅) w in
    if _ws_server (self w) then (Raise (create_task_none in_loop), w)
    else (Ok tt, logger LogInfoStopped w).

(** ** The connection handler *)

Inductive accepted : Type :=
  | Joined              (* registered, configured, now reading *)
  | Refused               (* capacity branch: error frame, close, return *)
  | Failed (e : exn).     (* a send raised *)

Inductive loop_step : Type :=
  | Continue
  | Break
  | Escape (e : exn).     (* the exception leaves the [async for] *)

(** The clause [except (json.JSONDecodeError, KeyError, ValueError)],
    which also catches the subclasses of [ValueError]. *)
Definition caught_per_message (e : exn) : bool :=
  match e with
  | JSONDecodeError | KeyError | ValueError | UnicodeDecodeError => true
  | _ => false
  end.

(** The [except] and [finally] clauses that end [handle_client], and
    the return of the handler: the websockets server closes the
    connection of a handler that has returned. *)
Definition handle_client_finally (ws : websocket) (r : result unit) (w : world) : world :=
  let w :=
    match r with
    | Ok _ => w
    | Raise ConnectionClosed => logger (LogInfoDisconnected ws) w
    | Raise e => logger (LogErrorHandling ws e) w
    end in
  let w := with_self (fun io => set_clients (_clients io ∖ {[ws]}) io) w in
  set_closed ({[ws]} ∪ closed w) (set_streaming (streaming w ∖ {[ws]}) w).

(** [handle_client] from its first line to the first [async for] wait. *)
Definition handle_client_accept (ws : websocket) (w : world) : accepted * world :=
  let w := logger (LogInfoConnected ws) w in
  if (MAX_CLIENTS <=? size (_clients (self w)))%nat then
    match ws_send ws (FError "Server at maximum capacity") w with
    | (Raise e, w) => (Failed e, w)
    | (Ok _, w) => (Refused, ws_close ws w)
    end
  else
    let w := with_self (fun io => set_clients ({[ws]} ∪ _clients io) io) w in
    match ws_send ws (FConfig SAMPLE_RATE AUDIO_CHUNK_SIZE "float32") w with
    | (Raise e, w) => (Failed e, handle_client_finally ws (Raise e) w)
    | (Ok _, w) => (Joined, set_streaming ({[ws]} ∪ streaming w) w)
    end.

Section Handler.

(** [np.array(obj, dtype=np.float32)] on a decoded JSON value. *)
Variable np_array : json -> result ndarray.

(** The VAD model, [self._vad_model]: an instance of the class [VAD] of
    [glados/audio_io/vad.py], used as a function from a float buffer to
    an activity score. *)
Variable vad_model : ndarray -> float.

(** The body of the inner [try] of the read loop. *)
Definition process_message (ws : websocket) (m : message) (w : world)
  : result unit * world :=
  match json_loads m with
  | Raise e => (Raise e, w)
  | Ok data =>
    match py_get data "type" with
    | Raise e => (Raise e, w)
    | Ok ty =>
      if py_eq_str ty "audio" then
        match py_getitem data "data" with
        | Raise e => (Raise e, w)
        | Ok d =>
          match np_array d with
          | Raise e => (Raise e, w)
          | Ok audio_data =>
            match nd_len audio_data with
            | Raise e => (Raise e, w)
            | Ok n =>
              if (0 <? n)%nat then
                let x := expand_dims0 audio_data in
                let vad_value := vad_model x in
                let w := add_vad_call x w in
                let vad_confidence :=
                  PrimFloat.ltb (vad_threshold (self w)) vad_value in
                (Ok tt, with_self (queue_put (audio_data, vad_confidence)) w)
              else (Ok tt, w)
            end
          end
        end
      else if py_eq_str ty "ping" then ws_send ws FPong w
      else (Ok tt, w)
    end
  end.

(** One turn of [async for message in websocket]. *)
Definition handle_message (ws : websocket) (m : message) (w : world)
  : loop_step * world :=
  if _stop_event (self w) then (Break, w)
  else
    match process_message ws m w with
    | (Ok _, w) => (Continue, w)
    | (Raise e, w) =>
        if caught_per_message e
        then (Continue, logger (LogWarningProcessing ws e) w)
        else (Escape e, w)
    end.

(** A message reaches a session: the turn of the loop and, when the
    loop is left, the end of the handler. *)
Definition session_receive (ws : websocket) (m : message) (w : world) : world :=
  if decide (ws ∈ streaming w) then
    match handle_message ws m w with
    | (Continue, w) => w
    | (Break, w) => handle_client_finally ws (Ok tt) w
    | (Escape e, w) => handle_client_finally ws (Raise e) w
    end
  else w.

(** The peer goes away and the connection is closed.  After a normal
    closure (close code 1000 or 1001, [clean]) the [async for] of a
    handler waiting on the connection just ends; after any other
    closure it raises [ConnectionClosed] into the handler. *)
Definition session_peer_close (ws : websocket) (clean : bool) (w : world) : world :=
  let w := set_closed ({[ws]} ∪ closed w) w in
  if decide (ws ∈ streaming w)
  then handle_client_finally ws (if clean then Ok tt else Raise ConnectionClosed) w
  else w.

(** A scheduled coroutine runs; what it raises stays in the task. *)
Definition run_task (i : nat) (w : world) : world :=
  match tasks w !! i with
  | None => w
  | Some t =>
      let w := {| self := self w; closed := closed w; wire := wire w;
                  tasks := delete i (tasks w); timers := timers w;
                  streaming := streaming w; vad_calls := vad_calls w;
                  log := log w |} in
      match t with
      | TaskSend ws f => snd (ws_send ws f w)
      | TaskClose ws => ws_close ws w
      end
  end.

(** ** The system as a transition system

    What can happen to a server, one event at a time: the network
    side (connections, messages, peers leaving, scheduled coroutines
    running), the timers, and the calls of the consumer. *)
Inductive event : Type :=
  | Connect (ws : websocket)
  | Receive (ws : websocket) (m : message)
  | PeerClose (ws : websocket) (clean : bool)
  | RunTask (i : nat)
  | ServerUp
  | TimerFires (i : nat)
  | CallStartListening
  | CallStopListening (in_loop : bool)
  | CallStartSpeaking (in_loop : bool) (audio_data : pyobject)
      (sample_rate : option Z) (text : string)
  | CallStopSpeaking (in_loop : bool).

Definition step (w : world) (e : event) : world :=
  match e with
  | Connect ws => snd (handle_client_accept ws w)
  | Receive ws m => session_receive ws m w
  | PeerClose ws clean => session_peer_close ws clean w
  | RunTask i => run_task i w
  | ServerUp => if _ws_thread (self w) then server_wrapper w else w
  | TimerFires i => timer_fires i w
  | CallStartListening => start_listening w
  | CallStopListening in_loop => snd (stop_listening in_loop w)
  | CallStartSpeaking in_loop a r t => snd (start_speaking in_loop a r t w)
  | CallStopSpeaking in_loop => stop_speaking in_loop w
  end.

Definition run (w : world) (es : list event) : world := fold_left step es w.

End Handler.

(** ** Concrete surroundings for running the model *)

(** *** [np.array(obj, dtype=np.float32)] on decoded JSON

    numpy finds the shape of the nested lists and then stores the
    elements one by one: [None] as nan, a bool as 0 or 1, a number by
    the cast of a double to a float, a str through [float(s)], and it
    refuses a dict with [TypeError].  Characters of a str are read as
    code points below 256. *)

(** The cast of a C double to a C float: rounding to the nearest
    binary32 number, ties to even, infinity beyond the range. *)
Definition to_float32 (x : float) : float :=
  match Prim2SF x with
  | S754_finite s m e =>
      SF2Prim (binary_normalize 24 128 (cond_Zopp s (Z.pos m)) e s)
  | _ => x
  end.

(** The double nearest to [m * 10 ^ e], as [strtod] finds it. *)
Definition decimal_to_float (neg : bool) (m e : Z) : float :=
  if m =? 0 then SF2Prim (S754_zero neg)
  else if 0 <=? e then
    SF2Prim (binary_normalize 53 1024 (cond_Zopp neg (m * 10 ^ e)) 0 neg)
  else
    let d := 10 ^ (- e) in
    let s := Z.log2 d + 64 in
    let q := (m * 2 ^ s) / d in
    let sticky := if (m * 2 ^ s) mod d =? 0 then 0 else 1 in
    SF2Prim (binary_normalize 53 1024 (cond_Zopp neg (2 * q + sticky)) (- s - 1) neg).

Definition code_points (s : string) : list Z :=
  map (fun c => Z.of_N (N_of_ascii c)) (list_ascii_of_string s).

(** What [float] strips at both ends: the C whitespace characters, and
    the other whitespace below 256, NEL and the no-break space. *)
Definition is_space (c : Z) : bool :=
  ((9 <=? c) && (c <=? 13)) || (c =? 32) || (c =? 133) || (c =? 160).

Definition is_digit (c : Z) : bool := (48 <=? c) && (c <=? 57).

Definition lower (c : Z) : Z := if (65 <=? c) && (c <=? 90) then c + 32 else c.

Fixpoint lstrip (cs : list Z) : list Z :=
  match cs with
  | c :: rest => if is_space c then lstrip rest else cs
  | [] => []
  end.

Definition strip (cs : list Z) : list Z := rev (lstrip (rev (lstrip cs))).

(** An underscore is allowed between two digits only; the underscores
    are then left out. *)
Fixpoint drop_underscores (prev : Z) (cs : list Z) : option (list Z) :=
  match cs with
  | [] => if prev =? 95 then None else Some []
  | c :: rest =>
      if c =? 95 then
        if is_digit prev then drop_underscores c rest else None
      else if (prev =? 95) && negb (is_digit c) then None
      else option_map (cons c) (drop_underscores c rest)
  end.

Definition take_sign (cs : list Z) : bool * list Z :=
  match cs with
  | c :: rest => if c =? 45 then (true, rest) else if c =? 43 then (false, rest) else (false, cs)
  | [] => (false, [])
  end.

Fixpoint take_digits (cs : list Z) (acc count : Z) : Z * Z * list Z :=
  match cs with
  | c :: rest =>
      if is_digit c then take_digits rest (10 * acc + (c - 48)) (count + 1)
      else (acc, count, cs)
  | [] => (acc, count, [])
  end.

(** Digits, a point and digits, with a digit on one side at least, and
    an exponent: mantissa and decimal exponent. *)
Definition decimal (cs : list Z) : option (Z * Z) :=
  let '(m1, n1, cs) := take_digits cs 0 0 in
  let '(m, n2, cs) :=
    match cs with
    | c :: rest => if c =? 46 then take_digits rest m1 0 else (m1, 0, cs)
    | [] => (m1, 0, cs)
    end in
  if n1 + n2 =? 0 then None
  else
    match cs with
    | [] => Some (m, - n2)
    | c :: rest =>
        if lower c =? 101 then
          let '(neg, rest) := take_sign rest in
          match take_digits rest 0 0 with
          | (e, ne, []) => if ne =? 0 then None else Some (m, cond_Zopp neg e - n2)
          | _ => None
          end
        else None
    end.

(** [float(s)] on a str: surrounding whitespace, a sign, then [inf],
    [infinity] or [nan] in any case, or a decimal number. *)
Definition py_float (s : string) : option float :=
  match drop_underscores 0 (strip (code_points s)) with
  | None => None
  | Some cs =>
      let '(neg, cs) := take_sign cs in
      let word := map lower cs in
      if bool_decide (word = code_points "inf") || bool_decide (word = code_points "infinity")
      then Some (if neg then neg_infinity else infinity)
      else if bool_decide (word = code_points "nan") then Some nan
      else
        match decimal cs with
        | Some (m, e) => Some (decimal_to_float neg m e)
        | None => None
        end
  end.

(** numpy's limit on the number of dimensions (32 before numpy 2). *)
Definition NPY_MAXDIMS : nat := 64.

(** The shape of nested lists: every item of a list has the shape of
    the first one; there is none when a list mixes items of different
    shapes ("inhomogeneous shape"). *)
Fixpoint shape_of (obj : json) : option (list nat) :=
  match obj with
  | JArr items =>
      match items with
      | [] => Some [0%nat]
      | first :: _ =>
          match shape_of first with
          | Some sh =>
              if forallb (fun item => bool_decide (shape_of item = Some sh)) items
              then Some (length items :: sh) else None
          | None => None
          end
      end
  | _ => Some []
  end.

(** The elements in row-major order. *)
Fixpoint leaves (obj : json) : list json :=
  match obj with
  | JArr items => flat_map leaves items
  | _ => [obj]
  end.

(** One element stored into a float32 array. *)
Definition float32_of (obj : json) : result float :=
  match obj with
  | JNull => Ok nan
  | JBool b => Ok (if b then 1%float else 0%float)
  | JNum x => Ok (to_float32 x)
  | JStr s =>
      match py_float s with
      | Some x => Ok (to_float32 x)
      | None => Raise ValueError
      end
  | JArr _ | JObj _ => Raise TypeError
  end.

(** [f] on every element in turn, up to the first that raises. *)
Fixpoint collect {A B} (f : A -> result B) (l : list A) : result (list B) :=
  match l with
  | [] => Ok []
  | a :: rest =>
      match f a with
      | Raise e => Raise e
      | Ok b =>
          match collect f rest with
          | Raise e => Raise e
          | Ok bs => Ok (b :: bs)
          end
      end
  end.

(** [np.array(obj, dtype=np.float32)]: the shape is found first
    ([ValueError] when there is none or it has too many dimensions),
    then the elements are stored. *)
Definition np_array_numbers (obj : json) : result ndarray :=
  match shape_of obj with
  | None => Raise ValueError
  | Some shape =>
      if (NPY_MAXDIMS <? length shape)%nat then Raise ValueError
      else
        match collect float32_of (leaves obj) with
        | Raise e => Raise e
        | Ok data => Ok (mk_ndarray float32 shape data)
        end
  end.

(** A VAD model that gives every chunk the same score. *)
Definition vad_const (score : float) : ndarray -> float := fun _ => score.

(** The server built with the defaults. *)
Definition default_io : RemoteAudioIO :=
  {| vad_threshold := VAD_THRESHOLD; ws_port := WS_PORT;
     _sample_queue := []; _is_listening := false; _is_playing := false;
     _stop_event := false; _ws_server := false; _ws_thread := false;
     _clients := ∅ |}.

Definition sample_step := step np_array_numbers (vad_const 0.5%float).
Definition sample_run := run np_array_numbers (vad_const 0.5%float).

(** Ten connections, which fill the registry. *)
Definition full_house : world :=
  sample_run (initial_world default_io) (map Connect (seq 1 10)).

(** One connected client on a listening server. *)
Definition one_client : world :=
  sample_run (initial_world default_io) [CallStartListening; ServerUp; Connect 1%nat].

(** One second and three seconds of audio at one sample per second. *)
Definition clip1 : ndarray := mk_ndarray float32 [1%nat] [0.5%float].
Definition clip3 : ndarray :=
  mk_ndarray float32 [3%nat] [0.5%float; 0.25%float; 0.125%float].
Definition ints3 : ndarray := mk_ndarray int16 [3%nat] [1%float; 2%float; 3%float].

(** ** Messages the read loop drops

    [dropped np_array m reason]: [m] is a message on which [json.loads]
    raises [JSONDecodeError] or another [ValueError], a message that
    decodes to an object whose [type] is neither [audio] nor [ping], or
    one that decodes to an [audio] object whose [data] is missing or is
    refused by numpy with an exception of the per-message clause.
    [reason] is the exception that the clause catches, if any. *)
Inductive dropped (np_array : json -> result ndarray) : message -> option exn -> Prop :=
  | drop_not_json text :
      dropped np_array (NotJson text) (Some JSONDecodeError)
  | drop_not_unicode payload :
      dropped np_array (NotUnicode payload) (Some UnicodeDecodeError)
  | drop_huge_integer text :
      dropped np_array (HugeInteger text) (Some ValueError)
  | drop_unknown_type fields :
      py_eq_str (assoc "type" fields) "audio" = false ->
      py_eq_str (assoc "type" fields) "ping" = false ->
      dropped np_array (Json (JObj fields)) None
  | drop_no_data fields :
      py_eq_str (assoc "type" fields) "audio" = true ->
      assoc "data" fields = None ->
      dropped np_array (Json (JObj fields)) (Some KeyError)
  | drop_bad_data fields d e :
      py_eq_str (assoc "type" fields) "audio" = true ->
      assoc "data" fields = Some d ->
      np_array d = Raise e ->
      caught_per_message e = true ->
      dropped np_array (Json (JObj fields)) (Some e).

(** Messages for the examples. *)
Definition audio_message (samples : list float) : message :=
  Json (JObj [("type"%string, JStr "audio"); ("data"%string, JArr (map JNum samples))]).
Definition unknown_message : message :=
  Json (JObj [("type"%string, JStr "hello")]).
Definition array_message : message := Json (JArr []).
Definition scalar_audio_message : message :=
  Json (JObj [("type"%string, JStr "audio"); ("data"%string, JNum 1%float)]).

(** ** Notions used in the statements *)

(** The chained comparison [0 <= t <= 1] on Python floats. *)
Definition in_unit_interval (t : float) : bool :=
  PrimFloat.leb 0 t && PrimFloat.leb t 1.

(** The frames a broadcast schedules: one send per registered client,
    in iteration order, when the caller runs an event loop. *)
Definition scheduled_sends (in_loop : bool) (f : frame) (cs : gset websocket) : list task :=
  if in_loop then map (fun c => TaskSend c f) (elements cs) else [].

(** The registry a broadcast leaves: untouched when every task could be
    created, empty when none could. *)
Definition after_broadcast (in_loop : bool) (cs : gset websocket) : gset websocket :=
  if in_loop then cs else ∅.

(** What the guard of [start_speaking] turns away: an object that is
    not an [ndarray], and an [ndarray] without elements. *)
Definition rejected_input (audio_data : pyobject) : bool :=
  match audio_data with
  | PyArray a => (nd_size a =? 0)%nat
  | _ => true
  end.

(** An array of floats, as the annotation [NDArray[np.float32]] reads. *)
Definition is_float_array (audio_data : pyobject) : bool :=
  match audio_data with
  | PyArray a => is_floating (nd_dtype a)
  | _ => false
  end.

(** The threshold stays and the registry does not grow. *)
Definition shrinks (w w' : world) : Prop :=
  vad_threshold (self w') = vad_threshold (self w)
  /\ _clients (self w') ⊆ _clients (self w).

(** ** The factory of [glados/audio_io/__init__.py] *)

(** What [get_audio_system] hands out: one of the two backends. *)
Inductive audio_system (SD : Type) : Type :=
  | SoundDeviceBackend (sd : SD)
  | RemoteBackend (io : RemoteAudioIO).
Arguments SoundDeviceBackend {SD} sd.
Arguments RemoteBackend {SD} io.

Section Factory.

(** The class [SoundDeviceAudioIO] of [sounddevice_io.py]: its objects
    and its constructor. *)
Variable SD : Type.
Variable SoundDeviceAudioIO : option float -> result SD.

(** [get_audio_system(backend_type, vad_threshold, **kwargs)]; the
    keyword arguments are the dict [kwargs], of which only [ws_port] is
    read. *)
Definition get_audio_system (backend_type : string) (vad_threshold : option float)
    (kwargs : gmap string (option Z)) : result (audio_system SD) :=
  if String.eqb backend_type "sounddevice" then
    match SoundDeviceAudioIO vad_threshold with
    | Ok sd => Ok (SoundDeviceBackend sd)
    | Raise e => Raise e
    end
  else if String.eqb backend_type "remote" then
    let ws_port :=
      match kwargs !! "ws_port"%string with
      | Some v => v
      | None => Some 8765
      end in
    match __init__ vad_threshold ws_port with
    | Ok io => Ok (RemoteBackend io)
    | Raise e => Raise e
    end
  else Raise ValueError.

End Factory.

(** ** Notions used in the statements, continued *)

(** An entry as the read loop queues it: a chunk with a positive
    length, flagged by comparing the model's score with the threshold. *)
Definition well_queued (vad_model : ndarray -> float) (threshold : float)
    (entry : ndarray * bool) : bool :=
  match nd_len (fst entry) with
  | Ok (S _) =>
      Bool.eqb (snd entry)
        (PrimFloat.ltb threshold (vad_model (expand_dims0 (fst entry))))
  | _ => false
  end.

(** Nothing of the inbound path changes: queue, VAD calls, frames on
    the wire, closed connections and reading sessions. *)
Definition same_inbound (w w' : world) : Prop :=
  _sample_queue (self w') = _sample_queue (self w)
  /\ vad_calls w' = vad_calls w
  /\ wire w' = wire w
  /\ closed w' = closed w
  /\ streaming w' = streaming w.

(** Nothing of the outbound path changes: playback state, scheduled
    coroutines and timers. *)
Definition same_playback (w w' : world) : Prop :=
  _is_playing (self w') = _is_playing (self w)
  /\ tasks w' = tasks w
  /\ timers w' = timers w.

(** The listening flags and the configuration stay. *)
Definition same_listening (w w' : world) : Prop :=
  _is_listening (self w') = _is_listening (self w)
  /\ _stop_event (self w') = _stop_event (self w)
  /\ _ws_server (self w') = _ws_server (self w)
  /\ _ws_thread (self w') = _ws_thread (self w)
  /\ ws_port (self w') = ws_port (self w).

(** Queue and VAD calls stay. *)
Definition keeps_queue (w w' : world) : Prop :=
  _sample_queue (self w') = _sample_queue (self w)
  /\ vad_calls w' = vad_calls w.

(** What processing one message can do to the world: nothing, a logged
    warning, a [pong] on the sender's open connection, or one VAD call
    with one queued entry. *)
Inductive receive_effect (vad_model : ndarray -> float) (ws : websocket) (w : world)
  : world -> Prop :=
  | effect_none : receive_effect vad_model ws w w
  | effect_warning e :
      receive_effect vad_model ws w (logger (LogWarningProcessing ws e) w)
  | effect_pong :
      ws ∉ closed w ->
      receive_effect vad_model ws w (add_wire ws (Sent FPong) w)
  | effect_queued a n :
      nd_len a = Ok (S n) ->
      receive_effect vad_model ws w
        (with_self
           (queue_put (a, PrimFloat.ltb (vad_threshold (self w))
                            (vad_model (expand_dims0 a))))
           (add_vad_call (expand_dims0 a) w)).

(** The coroutines [stop_listening] schedules: one close per registered
    client when the caller runs an event loop, none otherwise. *)
Definition scheduled_closes (in_loop : bool) (cs : gset websocket) : list task :=
  if in_loop then map TaskClose (elements cs) else [].

(** [sample_rate] after the default has been filled in. *)
Definition rate_or_default (sample_rate : option Z) : Z :=
  match sample_rate with None => SAMPLE_RATE | Some r => r end.

(** [len(audio_data) / sample_rate]: the length must exist and the rate
    must not be 0. *)
Definition playback_duration (audio_data : ndarray) (rate : Z) : result Q :=
  match nd_len audio_data with
  | Raise e => Raise e
  | Ok n =>
      if rate =? 0 then Raise ZeroDivisionError
      else Ok (inject_Z (Z.of_nat n) / inject_Z rate)%Q
  end.

(** The frame every joined client is sent first. *)
Definition config_frame : frame := FConfig SAMPLE_RATE AUDIO_CHUNK_SIZE "float32".

(** A [ping], and the server of [one_client] after [stop_listening]. *)
Definition ping_message : message := Json (JObj [("type"%string, JStr "ping")]).
Definition stopping : world := sample_step one_client (CallStopListening true).

(** A 0-d array. *)
Definition scalar_clip : ndarray := mk_ndarray float32 [] [0.5%float].

(** The calls of the two playback methods. *)
Definition is_speaking_call (e : event) : bool :=
  match e with
  | CallStartSpeaking _ _ _ _ | CallStopSpeaking _ => true
  | _ => false
  end.

(** A hundred thousand opening brackets. *)
Definition deep_text : string := N.iter 100000 (String "["%char) EmptyString.

(** The world a connection leaves when it joins: logged, registered,
    sent the configuration, reading. *)
Definition joined (ws : websocket) (w : world) : world :=
  let w := logger (LogInfoConnected ws) w in
  let w := with_self (fun io => set_clients ({[ws]} ∪ _clients io) io) w in
  let w := add_wire ws (Sent config_frame) w in
  set_streaming ({[ws]} ∪ streaming w) w.

(** * Properties *)

(** The attribute updates, to be unfolded together. *)
Create HintDb world discriminated.
#[local] Hint Unfold with_self set_clients set_is_playing set_is_listening
  set_stop_event set_ws_server set_ws_thread queue_put logger add_wire
  set_closed set_streaming add_tasks set_timers add_vad_call : world.

Ltac open_world w :=
  destruct w as [[] ? ? ? ? ? ? ?]; autounfold with world in *; simpl in *.

(** ** Construction *)

Lemma init_stores_threshold t p io :
  __init__ (Some t) p = Ok io -> vad_threshold io = t.
Proof.
  unfold __init__. destruct (negb _); [discriminate|].
  intros [= <-]. reflexivity.
Qed.

(** C6: a threshold in [0,1] (the default included) is accepted and
    stored as given, any other threshold makes the constructor raise
    [ValueError]; in no case is a server built around a different
    threshold than the one passed. *)
Theorem threshold_validated (t : float) (p : option Z) :
  (if in_unit_interval t
   then exists io, __init__ (Some t) p = Ok io /\ vad_threshold io = t
   else __init__ (Some t) p = Raise ValueError)
  /\ (exists io, __init__ None p = Ok io /\ vad_threshold io = VAD_THRESHOLD)
  /\ (forall io, __init__ (Some t) p = Ok io ->
        vad_threshold io = t /\ in_unit_interval t = true).
Proof.
  split; [|split].
  - unfold in_unit_interval, __init__.
    destruct (PrimFloat.leb 0 t && PrimFloat.leb t 1); simpl; eauto.
  - unfold __init__. eexists. split; reflexivity.
  - intros io H. split; [exact (init_stores_threshold _ _ _ H)|].
    unfold __init__, in_unit_interval in *.
    destruct (PrimFloat.leb 0 t && PrimFloat.leb t 1); [reflexivity|discriminate].
Qed.

Example threshold_too_large : __init__ (Some 1.5%float) None = Raise ValueError.
Proof. reflexivity. Qed.

Example threshold_negative : __init__ (Some (-0.25)%float) None = Raise ValueError.
Proof. reflexivity. Qed.

Example threshold_nan : __init__ (Some nan) None = Raise ValueError.
Proof. reflexivity. Qed.

Example threshold_bounds :
  (exists io, __init__ (Some 0%float) None = Ok io)
  /\ (exists io, __init__ (Some 1%float) None = Ok io).
Proof. split; eexists; reflexivity. Qed.

Example default_construction : __init__ None None = Ok default_io.
Proof. reflexivity. Qed.

(** ** Playback queries *)

(** C5: whatever [total_samples] and [sample_rate] are,
    [measure_percentage_spoken] answers [(True, 100)] when idle and
    [(False, 0)] when playing, and [check_if_speaking] is true exactly
    when playing. *)
Theorem progress_is_a_step_function (total_samples : Z) (sample_rate : option Z)
    (w : world) :
  measure_percentage_spoken total_samples sample_rate w
    = (if _is_playing (self w) then (false, 0) else (true, 100))
  /\ (check_if_speaking w = true <-> _is_playing (self w) = true).
Proof.
  unfold measure_percentage_spoken, check_if_speaking.
  destruct (_is_playing (self w)); simpl; split; tauto || reflexivity.
Qed.

(** ** Broadcasts, as one step *)

Lemma add_tasks_nil w : add_tasks [] w = w.
Proof. destruct w. unfold add_tasks. simpl. by rewrite app_nil_r. Qed.

Lemma add_tasks_add_tasks ts ts' w :
  add_tasks ts' (add_tasks ts w) = add_tasks (ts ++ ts') w.
Proof. destruct w. unfold add_tasks. simpl. by rewrite app_assoc. Qed.

Lemma broadcast_loop_spec in_loop f cs d w :
  broadcast_loop in_loop f cs d w
  = (if in_loop then d else list_to_set cs ∪ d,
     add_tasks (if in_loop then map (fun c => TaskSend c f) cs else []) w).
Proof.
  revert d w. induction cs as [|c cs IH]; intros d w; simpl.
  - destruct in_loop; rewrite add_tasks_nil; [done|].
    f_equal. set_solver.
  - destruct in_loop; simpl; rewrite IH.
    + by rewrite add_tasks_add_tasks.
    + f_equal. set_solver.
Qed.

Lemma broadcast_spec in_loop f w :
  broadcast in_loop f w
  = with_self (set_clients (after_broadcast in_loop (_clients (self w))))
      (add_tasks (scheduled_sends in_loop f (_clients (self w))) w).
Proof.
  unfold broadcast, scheduled_sends, after_broadcast.
  rewrite broadcast_loop_spec.
  destruct w as [io ? ? ? ? ? ? ?], io; destruct in_loop; simpl;
    unfold with_self, set_clients; simpl; do 2 f_equal.
  - set_solver.
  - apply set_eq. intros x. rewrite elem_of_difference, elem_of_union,
      elem_of_list_to_set, elem_of_elements. set_solver.
Qed.

Lemma after_broadcast_subseteq in_loop cs : after_broadcast in_loop cs ⊆ cs.
Proof. destruct in_loop; set_solver. Qed.

Lemma elem_of_scheduled_sends in_loop f cs c :
  c ∈ after_broadcast in_loop cs ->
  TaskSend c f ∈ scheduled_sends in_loop f cs.
Proof.
  unfold after_broadcast, scheduled_sends. destruct in_loop; [|set_solver].
  intros Hc. apply list_elem_of_fmap. exists c. split; [done|].
  by apply elem_of_elements.
Qed.

Lemma stop_speaking_spec in_loop w :
  stop_speaking in_loop w
  = if _is_playing (self w)
    then with_self (set_clients (after_broadcast in_loop (_clients (self w))))
           (add_tasks (scheduled_sends in_loop FStopPlayback (_clients (self w)))
              (with_self (set_is_playing false) w))
    else w.
Proof.
  unfold stop_speaking. destruct (_is_playing (self w)); [|done].
  rewrite broadcast_spec. by destruct w as [[] ? ? ? ? ? ? ?].
Qed.

Lemma stop_speaking_idle in_loop w :
  _is_playing (self (stop_speaking in_loop w)) = false.
Proof.
  rewrite stop_speaking_spec. destruct (_is_playing (self w)) eqn:E; [|done].
  by destruct w as [[] ? ? ? ? ? ? ?].
Qed.

Lemma stop_speaking_clients in_loop w :
  _clients (self (stop_speaking in_loop w)) ⊆ _clients (self w).
Proof.
  rewrite stop_speaking_spec. destruct (_is_playing (self w)); [|done].
  destruct w as [[] ? ? ? ? ? ? ?]; simpl. apply after_broadcast_subseteq.
Qed.

(** After [start_speaking] on a valid array, either playback is on or
    the registry is empty and playback is off. *)
Lemma start_speaking_playing_or_empty in_loop a sample_rate text w :
  nd_size a ≠ 0%nat ->
  let w1 := snd (start_speaking in_loop (PyArray a) sample_rate text w) in
  _is_playing (self w1) = true
  \/ (_is_playing (self w1) = false /\ _clients (self w1) = ∅).
Proof.
  intros Hsize. unfold start_speaking.
  destruct (Nat.eqb_spec (nd_size a) 0) as [|_]; [done|].
  set (w0 := stop_speaking in_loop w). clearbody w0.
  cbn zeta. case_decide as Hempty.
  - right. destruct w0 as [[] ? ? ? ? ? ? ?]; simpl in *. done.
  - left. rewrite broadcast_spec.
    destruct (nd_len a); [destruct (_ =? 0)|];
      by destruct w0 as [[] ? ? ? ? ? ? ?].
Qed.

(** X19: [stop_speaking] changes nothing when idle.  When playing it
    sets the state to idle and calls [asyncio.create_task] once per
    registered client with a send of [stop_playback]: a caller with a
    running event loop schedules one send per registered client and
    keeps the registry, a caller without one schedules nothing and
    empties the registry.  Nothing is written to a connection, no
    connection is closed, no session ends, and timers and log stay. *)
Theorem stop_speaking_contract (in_loop : bool) (w : world) :
  let w' := stop_speaking in_loop w in
  check_if_speaking w' = false
  /\ (if _is_playing (self w)
      then tasks w' = tasks w ++ scheduled_sends in_loop FStopPlayback (_clients (self w))
           /\ _clients (self w') = after_broadcast in_loop (_clients (self w))
           /\ same_inbound w w'
           /\ timers w' = timers w
           /\ log w' = log w
      else w' = w).
Proof.
  cbn zeta. split; [apply stop_speaking_idle|].
  rewrite stop_speaking_spec.
  destruct (_is_playing (self w)) eqn:E; [|done].
  destruct w as [[] ? ? ? ? ? ? ?]; simpl in *.
  by repeat split.
Qed.

(** C9, on the code: [stop_speaking] is a plain method that the consumer
    calls from its own thread, while the event loop runs in the server
    thread.  One client is connected and being read.

    First, [start_speaking] and then [stop_speaking] are called without
    a running event loop: playback is on after the first and off after
    the second, but no [stop_playback] send was scheduled and nothing
    was written to the client's connection, although that connection is
    still open and its session is still reading; the client is gone
    from the registry.

    Second, [start_speaking] is called with a running loop, so that the
    client is still registered while the clip plays, and only
    [stop_speaking] without one: the audio frame was scheduled for the
    client, [stop_playback] is not, and the client is dropped from the
    registry while its session reads on. *)
Theorem stop_playback_reaches_nobody :
  (let w1 := sample_step one_client
               (CallStartSpeaking false (PyArray clip3) (Some 1) "hello") in
   let w2 := sample_step w1 (CallStopSpeaking false) in
   _clients (self one_client) = {[1%nat]}
   /\ streaming one_client = {[1%nat]}
   /\ check_if_speaking w1 = true
   /\ check_if_speaking w2 = false
   /\ tasks w2 = []
   /\ wire w2 = wire one_client
   /\ closed w2 = ∅
   /\ streaming w2 = {[1%nat]}
   /\ _clients (self w2) = ∅)
  /\ (let w1 := sample_step one_client
                  (CallStartSpeaking true (PyArray clip3) (Some 1) "hello") in
      let w2 := sample_step w1 (CallStopSpeaking false) in
      check_if_speaking w1 = true
      /\ _clients (self w1) = {[1%nat]}
      /\ tasks w1 = [TaskSend 1%nat (FAudioPlayback clip3 1 "hello")]
      /\ check_if_speaking w2 = false
      /\ tasks w2 = tasks w1
      /\ wire w2 = wire one_client
      /\ closed w2 = ∅
      /\ streaming w2 = {[1%nat]}
      /\ _clients (self w2) = ∅).
Proof. vm_compute. repeat split; reflexivity. Qed.

(** ** [start_speaking] *)

(** C7, as amended: an [audio_data] that is not an [ndarray], or is an
    [ndarray] of size 0, makes [start_speaking] raise [ValueError] with
    the world exactly as it was: same playback state, registry and
    queue, nothing sent or scheduled. *)
Theorem start_speaking_rejects (in_loop : bool) (audio_data : pyobject)
    (sample_rate : option Z) (text : string) (w : world) :
  rejected_input audio_data = true ->
  start_speaking in_loop audio_data sample_rate text w = (Raise ValueError, w).
Proof.
  unfold rejected_input, start_speaking.
  destruct audio_data as [| |a]; [done|done|].
  by intros ->.
Qed.

Lemma start_speaking_rejects_witness :
  start_speaking true (PyList [0.5%float]) None "" one_client
    = (Raise ValueError, one_client)
  /\ start_speaking false (PyArray (mk_ndarray float32 [0%nat] [])) None "" one_client
    = (Raise ValueError, one_client).
Proof.
  split.
  - apply (start_speaking_rejects true (PyList [0.5%float]) None "" one_client).
    reflexivity.
  - apply (start_speaking_rejects false (PyArray (mk_ndarray float32 [0%nat] []))
             None "" one_client).
    reflexivity.
Defined.

(** X17: the guard turns away nothing else: any non-empty [ndarray] gets
    past it, whatever its element type. *)
Lemma start_speaking_accepts in_loop a sample_rate text w :
  rejected_input (PyArray a) = false ->
  fst (start_speaking in_loop (PyArray a) sample_rate text w) ≠ Raise ValueError.
Proof.
  unfold rejected_input, start_speaking. intros ->. cbn zeta.
  case_decide; [done|].
  destruct (nd_len a) as [n|e] eqn:E.
  - by destruct (_ =? 0).
  - unfold nd_len in E. destruct (nd_shape a); by inversion E.
Qed.

(** C7, as stated, fails: a non-empty array of 16-bit integers is not a
    float array, yet [start_speaking] returns normally, switches the
    playback state to playing and schedules a frame for the client. *)
Lemma int_array_is_played :
  is_float_array (PyArray ints3) = false
  /\ fst (start_speaking true (PyArray ints3) None "" one_client) = Ok tt
  /\ check_if_speaking one_client = false
  /\ check_if_speaking (snd (start_speaking true (PyArray ints3) None "" one_client))
     = true
  /\ tasks one_client = []
  /\ tasks (snd (start_speaking true (PyArray ints3) None "" one_client))
     = [TaskSend 1%nat (FAudioPlayback ints3 16000 "")].
Proof. vm_compute. repeat split; reflexivity. Qed.

(** C8, as amended: with a valid array and an empty registry
    [start_speaking] returns normally, logs the warning, schedules no
    frame and no coroutine, starts no completion timer (the pending
    timers are those that were pending before the call), and leaves the
    playback state idle. *)
Theorem start_speaking_without_audience (in_loop : bool) (a : ndarray)
    (sample_rate : option Z) (text : string) (w : world) :
  nd_size a ≠ 0%nat ->
  _clients (self w) = ∅ ->
  let '(r, w') := start_speaking in_loop (PyArray a) sample_rate text w in
  r = Ok tt
  /\ log w' = log w ++ [LogDebugBroadcasting 0; LogWarningNoClients]
  /\ tasks w' = tasks w
  /\ wire w' = wire w
  /\ timers w' = timers w
  /\ _clients (self w') = ∅
  /\ check_if_speaking w' = false.
Proof.
  intros Hsize Hempty. unfold start_speaking.
  destruct (Nat.eqb_spec (nd_size a) 0) as [|_]; [done|].
  set (w0 := stop_speaking in_loop w).
  assert (H0 : _clients (self w0) = ∅ /\ tasks w0 = tasks w /\ wire w0 = wire w
               /\ timers w0 = timers w /\ log w0 = log w).
  { unfold w0. rewrite stop_speaking_spec, Hempty.
    unfold scheduled_sends, after_broadcast. rewrite elements_empty.
    destruct (_is_playing (self w)); [|done].
    destruct w as [[] ? ? ? ? ? ? ?], in_loop; cbn; by rewrite ?app_nil_r. }
  clearbody w0. destruct H0 as (Hc & Ht & Hw & Hti & Hl).
  cbn zeta.
  destruct w0 as [[] ? ? ? ? ? ? ?].
  cbn [self _clients tasks wire timers log] in Hc, Ht, Hw, Hti, Hl. subst.
  cbn [with_self logger set_is_playing self _clients].
  rewrite decide_True by done. rewrite size_empty.
  cbn. by rewrite <- app_assoc.
Qed.

(** A server whose only client left while a three-second clip was
    playing: the registry is empty and the timer of that clip is
    pending. *)
Lemma start_speaking_without_audience_witness :
  let w := sample_run one_client
             [CallStartSpeaking true (PyArray clip3) (Some 1) "first";
              PeerClose 1%nat true] in
  nd_size clip1 ≠ 0%nat
  /\ _clients (self w) = ∅
  /\ fst (start_speaking true (PyArray clip1) (Some 1) "second" w) = Ok tt
  /\ timers (snd (start_speaking true (PyArray clip1) (Some 1) "second" w)) = timers w
  /\ check_if_speaking (snd (start_speaking true (PyArray clip1) (Some 1) "second" w))
     = false.
Proof.
  cbv zeta.
  set (w := sample_run one_client _).
  assert (H1 : nd_size clip1 ≠ 0%nat) by (vm_compute; lia).
  assert (H2 : _clients (self w) = ∅) by (vm_compute; reflexivity).
  split; [exact H1|]. split; [exact H2|].
  generalize (start_speaking_without_audience true clip1 (Some 1) "second" w H1 H2).
  destruct (start_speaking _ _ _ _ _) as [r w']. simpl.
  intros (Hr & _ & _ & _ & Ht & _ & Hs). by rewrite Hr, Ht, Hs.
Defined.

(** C8, as stated, fails: on that server [start_speaking] with a valid
    array returns normally and leaves the state idle, and the timer of
    the earlier clip, which nothing cancels, is still pending. *)
Lemma earlier_timer_outlives_empty_playback :
  let w := sample_run one_client
             [CallStartSpeaking true (PyArray clip3) (Some 1) "first";
              PeerClose 1%nat true] in
  _clients (self w) = ∅
  /\ fst (start_speaking true (PyArray clip1) (Some 1) "second" w) = Ok tt
  /\ check_if_speaking (snd (start_speaking true (PyArray clip1) (Some 1) "second" w))
     = false
  /\ timers (snd (start_speaking true (PyArray clip1) (Some 1) "second" w))
     = [3 # 1]%Q.
Proof. vm_compute. repeat split; reflexivity. Qed.

(** ** The completion timer *)

(** Whichever pending timer fires, the callback switches the playback
    state off; nothing ties the callback to a playback. *)
Lemma timer_fires_idles (i : nat) (d : Q) (w : world) :
  timers w !! i = Some d ->
  check_if_speaking (timer_fires i w) = false
  /\ timers (timer_fires i w) = delete i (timers w).
Proof. unfold timer_fires. intros ->. by open_world w. Qed.

(** C4, on the code: a one-second clip is started, then a three-second
    clip; both timers are pending and the newer clip is playing.  When
    the first timer fires, the state becomes idle although the timer
    of the three-second clip has not fired. *)
Theorem stale_timer_stops_newer_playback :
  let w2 := sample_run one_client
              [CallStartSpeaking true (PyArray clip1) (Some 1) "first";
               CallStartSpeaking true (PyArray clip3) (Some 1) "second"] in
  timers w2 = [1 # 1; 3 # 1]%Q
  /\ check_if_speaking w2 = true
  /\ timers (sample_step w2 (TimerFires 0)) = [3 # 1]%Q
  /\ check_if_speaking (sample_step w2 (TimerFires 0)) = false.
Proof. vm_compute. repeat split; reflexivity. Qed.

(** The same on a consumer thread that runs no event loop, where every
    broadcast empties the registry: the first clip is started and
    stopped, a second client connects, the second clip is started, and
    the timer of the first clip ends it. *)
Example no_loop_stale_timer :
  let w2 := sample_run one_client
              [CallStartSpeaking false (PyArray clip1) (Some 1) "first";
               CallStopSpeaking false;
               Connect 2%nat;
               CallStartSpeaking false (PyArray clip3) (Some 1) "second"] in
  timers w2 = [1 # 1; 3 # 1]%Q
  /\ check_if_speaking w2 = true
  /\ check_if_speaking (sample_step w2 (TimerFires 0)) = false.
Proof. vm_compute. repeat split; reflexivity. Qed.

(** ** [stop_listening] *)

Lemma close_all_self in_loop cs w : self (close_all in_loop cs w) = self w.
Proof.
  revert w. induction cs as [|c cs IH]; intros w; simpl; [done|].
  rewrite IH. unfold create_task. destruct in_loop; by destruct w.
Qed.

(** C10: [stop_listening] on a listening server leaves the registry
    empty, so [get_connected_clients] answers 0, and the server no
    longer listening; calling it again returns at once and changes
    nothing. *)
Theorem stop_listening_empties_registry (in_loop in_loop' : bool) (w : world) :
  _is_listening (self w) = true ->
  let w' := snd (stop_listening in_loop w) in
  _clients (self w') = ∅
  /\ get_connected_clients w' = 0%nat
  /\ _is_listening (self w') = false
  /\ stop_listening in_loop' w' = (Ok tt, w').
Proof.
  intros Hl. cbn zeta.
  assert (H : _clients (self (snd (stop_listening in_loop w))) = ∅
              /\ _is_listening (self (snd (stop_listening in_loop w))) = false).
  { unfold stop_listening. rewrite Hl. simpl.
    set (w0 := close_all _ _ _).
    assert (Hw0 : self w0 = set_stop_event true (set_is_listening false (self w))).
    { unfold w0. rewrite close_all_self. by destruct w. }
    clearbody w0.
    destruct w0 as [io0 ? ? ? ? ? ? ?]; simpl in *. subst io0.
    destruct w as [[] ? ? ? ? ? ? ?]; simpl in *.
    destruct _ws_server0; simpl; done. }
  destruct H as [Hc Hn]. split; [done|]. split.
  - unfold get_connected_clients. rewrite Hc. apply size_empty.
  - split; [done|]. unfold stop_listening at 1. by rewrite Hn.
Qed.

Lemma stop_listening_empties_registry_witness :
  _is_listening (self one_client) = true
  /\ get_connected_clients one_client = 1%nat
  /\ get_connected_clients (snd (stop_listening false one_client)) = 0%nat
  /\ get_connected_clients (snd (stop_listening true one_client)) = 0%nat.
Proof.
  assert (H : _is_listening (self one_client) = true) by reflexivity.
  split; [exact H|]. split; [reflexivity|]. split.
  - exact (proj1 (proj2 (stop_listening_empties_registry false false one_client H))).
  - exact (proj1 (proj2 (stop_listening_empties_registry true false one_client H))).
Defined.

Example stop_listening_raises_with_server_up :
  fst (stop_listening false one_client) = Raise RuntimeError
  /\ fst (stop_listening true one_client) = Raise TypeError.
Proof. split; reflexivity. Qed.

(** ** What a step can do to the object *)

Lemma shrinks_refl w : shrinks w w.
Proof. by split. Qed.

Lemma shrinks_trans w1 w2 w3 : shrinks w1 w2 -> shrinks w2 w3 -> shrinks w1 w3.
Proof. intros [? ?] [? ?]. split; [congruence|set_solver]. Qed.

Lemma shrinks_same_self w w' : self w' = self w -> shrinks w w'.
Proof. intros H. unfold shrinks. by rewrite H. Qed.

Lemma stop_speaking_shrinks in_loop w : shrinks w (stop_speaking in_loop w).
Proof.
  split; [|apply stop_speaking_clients].
  rewrite stop_speaking_spec. destruct (_is_playing (self w)); [|done].
  by open_world w.
Qed.

Lemma broadcast_shrinks in_loop f w : shrinks w (broadcast in_loop f w).
Proof.
  rewrite broadcast_spec. pose proof (after_broadcast_subseteq in_loop (_clients (self w))).
  by open_world w.
Qed.

Lemma shrinks_set_timers w w' ts : shrinks w w' -> shrinks w (set_timers ts w').
Proof. intros [? ?]. by destruct w'. Qed.

Lemma start_speaking_shrinks in_loop audio_data sample_rate text w :
  shrinks w (snd (start_speaking in_loop audio_data sample_rate text w)).
Proof.
  unfold start_speaking.
  destruct audio_data as [| |a]; try apply shrinks_refl.
  destruct (nd_size a =? 0)%nat; [apply shrinks_refl|].
  apply (shrinks_trans _ (stop_speaking in_loop w)); [apply stop_speaking_shrinks|].
  set (w0 := stop_speaking in_loop w). clearbody w0. cbn zeta.
  case_decide.
  - simpl. by open_world w0.
  - set (w1 := with_self _ _).
    assert (H1 : shrinks w0 w1) by (unfold w1; by open_world w0).
    assert (H2 : shrinks w0 (broadcast in_loop
                               (FAudioPlayback a
                                  match sample_rate with
                                  | Some r => r
                                  | None => SAMPLE_RATE
                                  end text) w1)).
    { eapply shrinks_trans; [exact H1|apply broadcast_shrinks]. }
    destruct (nd_len a); [destruct (_ =? 0)|]; cbn [snd];
      [exact H2|by apply shrinks_set_timers|exact H2].
Qed.

Lemma stop_listening_shrinks in_loop w : shrinks w (snd (stop_listening in_loop w)).
Proof.
  unfold stop_listening. destruct (_is_listening (self w)); [|apply shrinks_refl].
  simpl. set (w0 := close_all _ _ _).
  assert (Hw0 : self w0 = set_stop_event true (set_is_listening false (self w))).
  { unfold w0. rewrite close_all_self. by destruct w. }
  clearbody w0. unfold create_task.
  destruct w0 as [io0 ? ? ? ? ? ? ?]; simpl in *. subst io0.
  open_world w. destruct _ws_server0, in_loop; simpl; split; set_solver.
Qed.

Lemma handle_client_finally_shrinks ws r w :
  shrinks w (handle_client_finally ws r w).
Proof.
  unfold handle_client_finally.
  destruct r as [|[]]; open_world w; split; set_solver.
Qed.

Lemma timer_fires_shrinks i w : shrinks w (timer_fires i w).
Proof. unfold timer_fires. destruct (_ !! _); by open_world w. Qed.

Lemma ws_send_self ws f w : self (snd (ws_send ws f w)) = self w.
Proof. unfold ws_send. case_decide; by destruct w. Qed.

Lemma ws_close_self ws w : self (ws_close ws w) = self w.
Proof. unfold ws_close. case_decide; by destruct w. Qed.

(** A connection joins only below capacity, and adds at most
    itself. *)
Lemma handle_client_accept_clients ws w :
  let w' := snd (handle_client_accept ws w) in
  vad_threshold (self w') = vad_threshold (self w)
  /\ (_clients (self w') ⊆ _clients (self w)
      \/ (size (_clients (self w)) < MAX_CLIENTS)%nat
         /\ _clients (self w') = {[ws]} ∪ _clients (self w)).
Proof.
  unfold handle_client_accept. cbn zeta.
  replace (_clients (self (logger (LogInfoConnected ws) w)))
    with (_clients (self w)) by (by destruct w).
  destruct (Nat.leb_spec MAX_CLIENTS (size (_clients (self w)))) as [Hfull|Hroom].
  - unfold ws_send. case_decide; simpl.
    + by open_world w; auto.
    + rewrite ws_close_self. by open_world w; auto.
  - unfold ws_send. case_decide; simpl.
    + open_world w. split; [done|]. left. set_solver.
    + open_world w. split; [done|]. by right.
Qed.

Section HandlerFacts.

Variable np_array : json -> result ndarray.
Variable vad_model : ndarray -> float.

Local Abbreviation process := (process_message np_array vad_model).
Local Abbreviation handle := (handle_message np_array vad_model).
Local Abbreviation receive := (session_receive np_array vad_model).
Local Abbreviation step1 := (step np_array vad_model).
Local Abbreviation run_from := (run np_array vad_model).

(** Processing a message touches the queue at most. *)
Lemma process_message_self ws m w :
  let io' := self (snd (process ws m w)) in
  vad_threshold io' = vad_threshold (self w)
  /\ _clients io' = _clients (self w)
  /\ _stop_event io' = _stop_event (self w)
  /\ _is_playing io' = _is_playing (self w).
Proof.
  unfold process_message. cbn zeta.
  destruct (json_loads m) as [data|]; [|done].
  destruct (py_get data "type") as [ty|]; [|done].
  destruct (py_eq_str ty "audio").
  - destruct (py_getitem data "data") as [d|]; [|done].
    destruct (np_array d) as [a|]; [|done].
    destruct (nd_len a) as [n|]; [|done].
    destruct (0 <? n)%nat; [|done]. by open_world w.
  - destruct (py_eq_str ty "ping"); [|done].
    by rewrite ws_send_self.
Qed.

Lemma handle_message_self ws m w :
  let io' := self (snd (handle ws m w)) in
  vad_threshold io' = vad_threshold (self w)
  /\ _clients io' = _clients (self w).
Proof.
  unfold handle_message. cbn zeta.
  destruct (_stop_event (self w)); [done|].
  pose proof (process_message_self ws m w) as (Ht & Hc & _).
  destruct (process ws m w) as [[|e] w']; simpl in *; [done|].
  destruct (caught_per_message e); simpl; [|done].
  by destruct w'.
Qed.

Lemma session_receive_shrinks ws m w : shrinks w (receive ws m w).
Proof.
  unfold session_receive. case_decide; [|apply shrinks_refl].
  pose proof (handle_message_self ws m w) as [Ht Hc].
  destruct (handle ws m w) as [[| |e] w']; simpl in *.
  - split; [done|]. by rewrite Hc.
  - eapply shrinks_trans; [|apply handle_client_finally_shrinks].
    split; [done|]. by rewrite Hc.
  - eapply shrinks_trans; [|apply handle_client_finally_shrinks].
    split; [done|]. by rewrite Hc.
Qed.

Lemma session_peer_close_shrinks ws clean w :
  shrinks w (session_peer_close ws clean w).
Proof.
  unfold session_peer_close. cbn zeta. case_decide.
  - eapply shrinks_trans; [|apply handle_client_finally_shrinks].
    apply shrinks_same_self. by destruct w.
  - apply shrinks_same_self. by destruct w.
Qed.

Lemma run_task_shrinks i w : shrinks w (run_task i w).
Proof.
  unfold run_task. destruct (tasks w !! i) as [[ws f|ws]|];
    apply shrinks_same_self; rewrite ?ws_send_self, ?ws_close_self; by destruct w.
Qed.

(** Only a connection that joins makes the registry grow, by one
    client and only below capacity; no step changes the threshold. *)
Lemma step_clients w e :
  vad_threshold (self (step1 w e)) = vad_threshold (self w)
  /\ (_clients (self (step1 w e)) ⊆ _clients (self w)
      \/ (size (_clients (self w)) < MAX_CLIENTS)%nat
         /\ exists ws, _clients (self (step1 w e)) = {[ws]} ∪ _clients (self w)).
Proof.
  assert (Hs : forall w', shrinks w w' ->
    vad_threshold (self w') = vad_threshold (self w)
    /\ (_clients (self w') ⊆ _clients (self w)
        \/ (size (_clients (self w)) < MAX_CLIENTS)%nat
           /\ exists ws, _clients (self w') = {[ws]} ∪ _clients (self w))).
  { intros w' [? ?]. auto. }
  destruct e; simpl.
  - destruct (handle_client_accept_clients ws w) as [Ht [Hc|[Hlt Hc]]]; eauto.
  - apply Hs, session_receive_shrinks.
  - apply Hs, session_peer_close_shrinks.
  - apply Hs, run_task_shrinks.
  - apply Hs. destruct (_ws_thread (self w)); [|apply shrinks_refl].
    unfold server_wrapper. by open_world w.
  - apply Hs, timer_fires_shrinks.
  - apply Hs. unfold start_listening.
    destruct (_is_listening (self w)) eqn:E; [apply shrinks_refl|].
    by open_world w.
  - apply Hs, stop_listening_shrinks.
  - apply Hs, start_speaking_shrinks.
  - apply Hs, stop_speaking_shrinks.
Qed.

Lemma size_add_one (ws : websocket) (X : gset websocket) :
  (size ({[ws]} ∪ X) <= S (size X))%nat.
Proof.
  rewrite size_union_alt, size_singleton.
  assert (size (X ∖ {[ws]}) <= size X)%nat; [|lia].
  apply subseteq_size. set_solver.
Qed.

Lemma run_snoc w es e : run_from w (es ++ [e]) = step1 (run_from w es) e.
Proof. unfold run. by rewrite fold_left_app. Qed.

(** The registry stays within capacity, and the threshold stays what
    it was, along every run. *)
Lemma run_invariant w es :
  (size (_clients (self w)) <= MAX_CLIENTS)%nat ->
  (size (_clients (self (run_from w es))) <= MAX_CLIENTS)%nat
  /\ vad_threshold (self (run_from w es)) = vad_threshold (self w).
Proof.
  intros Hw. induction es as [|e es IH] using rev_ind; [done|].
  rewrite run_snoc. destruct IH as [IHs IHt].
  destruct (step_clients (run_from w es) e) as [Ht [Hc|[Hlt [ws Hc]]]].
  - split; [|congruence].
    etrans; [apply subseteq_size, Hc|done].
  - split; [|congruence].
    rewrite Hc. etrans; [apply size_add_one|lia].
Qed.

Lemma reachable_bounded t p io es :
  __init__ t p = Ok io ->
  (get_connected_clients (run_from (initial_world io) es) <= MAX_CLIENTS)%nat
  /\ vad_threshold (self (run_from (initial_world io) es)) = vad_threshold io.
Proof.
  intros Hinit. apply (run_invariant (initial_world io) es).
  unfold __init__ in Hinit. destruct (negb _); [done|].
  injection Hinit as <-. cbn [initial_world self _clients].
  rewrite size_empty. unfold MAX_CLIENTS. lia.
Qed.


(** ** Audio messages *)

(** C1: an [audio] message handled by a streaming session whose data
    numpy turns into an array with a length: with length 0 the VAD
    model is not called and the queue is as before; with a positive
    length the model is called once and exactly one entry is appended,
    the array with the flag [score > threshold], where the threshold is
    the one the server was constructed with. *)
Theorem audio_chunk_gated (t : option float) (p : option Z) (io : RemoteAudioIO)
    (es : list event) (ws : websocket) (fields : list (string * json))
    (d : json) (a : ndarray) (n : nat) :
  __init__ t p = Ok io ->
  let w := run_from (initial_world io) es in
  ws ∈ streaming w ->
  _stop_event (self w) = false ->
  assoc "type" fields = Some (JStr "audio") ->
  assoc "data" fields = Some d ->
  np_array d = Ok a ->
  nd_len a = Ok n ->
  let w' := receive ws (Json (JObj fields)) w in
  ws ∈ streaming w'
  /\ if (n =? 0)%nat
     then vad_calls w' = vad_calls w
          /\ get_sample_queue w' = get_sample_queue w
     else vad_calls w' = vad_calls w ++ [expand_dims0 a]
          /\ get_sample_queue w'
             = get_sample_queue w
               ++ [(a, PrimFloat.ltb (vad_threshold io) (vad_model (expand_dims0 a)))].
Proof.
  intros Hinit. cbn zeta.
  destruct (reachable_bounded t p io es Hinit) as [_ Hthr].
  set (w := run_from (initial_world io) es) in *. clearbody w.
  intros Hws Hstop Hty Hdata Harr Hlen.
  unfold session_receive. rewrite decide_True by done.
  unfold handle_message. rewrite Hstop.
  unfold process_message. simpl. rewrite Hty. simpl.
  rewrite Hdata, Harr, Hlen.
  destruct n as [|n]; simpl.
  - done.
  - rewrite <- Hthr. by open_world w.
Qed.

(** ** Messages that are dropped *)

(** C3, as amended: while the stop event is not set, a message on which
    [json.loads] raises [JSONDecodeError] or another [ValueError], and
    a message that decodes to an [audio] object whose data is missing
    or is refused by numpy with a [ValueError], is dropped with a logged
    warning; a message that decodes to an object of another type than
    [audio] and [ping] is dropped without any log line.  In each case
    nothing else changes, the session keeps reading and stays in the
    registry if it was there. *)
Theorem malformed_message_dropped (ws : websocket) (m : message)
    (reason : option exn) (w : world) :
  dropped np_array m reason ->
  ws ∈ streaming w ->
  _stop_event (self w) = false ->
  let w' := receive ws m w in
  w' = match reason with
       | Some e => logger (LogWarningProcessing ws e) w
       | None => w
       end
  /\ ws ∈ streaming w'
  /\ _clients (self w') = _clients (self w)
  /\ get_sample_queue w' = get_sample_queue w.
Proof.
  intros Hm Hws Hstop. cbn zeta.
  assert (Heq : receive ws m w
                = match reason with
                  | Some e => logger (LogWarningProcessing ws e) w
                  | None => w
                  end).
  { unfold session_receive. rewrite decide_True by done.
    unfold handle_message. rewrite Hstop. unfold process_message.
    destruct Hm as [text|payload|text|fields Ha Hp|fields Ha Hd|fields d e Ha Hd He Hc];
      simpl.
    - done.
    - done.
    - done.
    - by rewrite Ha, Hp.
    - by rewrite Ha, Hd.
    - by rewrite Ha, Hd, He, Hc. }
  rewrite Heq. split; [done|].
  destruct reason; by destruct w.
Qed.

(** X18: a JSON value that is not an object has no [get]: the
    [AttributeError] is not among the exceptions of the per-message
    clause and leaves the loop.  The handler logs it as an error,
    discards the client from the registry and returns, so the session
    reads no more and its connection is closed.  Nothing was queued,
    scored or sent. *)
Lemma non_object_json_ends_session (ws : websocket) (v : json) (w : world) :
  (forall fields, v ≠ JObj fields) ->
  ws ∈ streaming w ->
  _stop_event (self w) = false ->
  let w' := receive ws (Json v) w in
  handle ws (Json v) w = (Escape AttributeError, w)
  /\ log w' = log w ++ [LogErrorHandling ws AttributeError]
  /\ (ws ∉ streaming w')
  /\ (ws ∉ _clients (self w'))
  /\ streaming w' = streaming w ∖ {[ws]}
  /\ _clients (self w') = _clients (self w) ∖ {[ws]}
  /\ closed w' = {[ws]} ∪ closed w
  /\ get_sample_queue w' = get_sample_queue w
  /\ vad_calls w' = vad_calls w
  /\ wire w' = wire w.
Proof.
  intros Hv Hws Hstop. cbn zeta.
  assert (H : handle ws (Json v) w = (Escape AttributeError, w)).
  { unfold handle_message. rewrite Hstop. unfold process_message. simpl.
    destruct v; try done. by destruct (Hv fields). }
  split; [done|].
  unfold session_receive. rewrite decide_True by done. rewrite H.
  unfold handle_client_finally, get_sample_queue. open_world w.
  repeat split; try done; set_solver.
Qed.

(** ** Capacity *)


End HandlerFacts.

(** ** The handler on concrete messages *)

Lemma one_client_streaming : 1%nat ∈ streaming one_client.
Proof. refine (bool_decide_unpack _ _). vm_compute. exact I. Qed.

Lemma one_client_running : _stop_event (self one_client) = false.
Proof. vm_compute. reflexivity. Qed.

Lemma audio_chunk_gated_witness :
  get_sample_queue
    (sample_step one_client (Receive 1%nat (audio_message [0%float; 0%float])))
  = get_sample_queue one_client
    ++ [(mk_ndarray float32 [2%nat] [0%float; 0%float], false)]
  /\ get_sample_queue (sample_step one_client (Receive 1%nat (audio_message [])))
     = get_sample_queue one_client
  /\ vad_calls (sample_step one_client (Receive 1%nat (audio_message [])))
     = vad_calls one_client.
Proof.
  unfold one_client, sample_run, sample_step, step, audio_message.
  cbn [map].
  assert (Hs : 1%nat ∈ streaming
                 (run np_array_numbers (vad_const 0.5%float) (initial_world default_io)
                    [CallStartListening; ServerUp; Connect 1%nat])).
  { refine (bool_decide_unpack _ _). vm_compute. exact I. }
  assert (Hr : _stop_event
                 (self (run np_array_numbers (vad_const 0.5%float)
                          (initial_world default_io)
                          [CallStartListening; ServerUp; Connect 1%nat])) = false).
  { vm_compute. reflexivity. }
  pose proof (audio_chunk_gated np_array_numbers (vad_const 0.5%float) None None
                default_io [CallStartListening; ServerUp; Connect 1%nat] 1%nat
                [("type"%string, JStr "audio");
                 ("data"%string, JArr [JNum 0%float; JNum 0%float])]
                (JArr [JNum 0%float; JNum 0%float])
                (mk_ndarray float32 [2%nat] [0%float; 0%float]) 2%nat
                eq_refl Hs Hr eq_refl eq_refl eq_refl eq_refl)
    as [_ [_ Hfull]].
  pose proof (audio_chunk_gated np_array_numbers (vad_const 0.5%float) None None
                default_io [CallStartListening; ServerUp; Connect 1%nat] 1%nat
                [("type"%string, JStr "audio"); ("data"%string, JArr [])]
                (JArr []) (mk_ndarray float32 [0%nat] []) 0%nat
                eq_refl Hs Hr eq_refl eq_refl eq_refl eq_refl)
    as [_ [Hcalls Hempty]].
  split; [exact Hfull|]. split; [exact Hempty|exact Hcalls].
Defined.

Example silence_is_queued_unflagged :
  get_sample_queue
    (sample_step one_client (Receive 1%nat (audio_message [0%float; 0%float])))
  = [(mk_ndarray float32 [2%nat] [0%float; 0%float], false)].
Proof. vm_compute. reflexivity. Qed.

Example speech_is_flagged :
  get_sample_queue
    (step np_array_numbers (vad_const 0.875%float) one_client
       (Receive 1%nat (audio_message [0.5%float])))
  = [(mk_ndarray float32 [1%nat] [0.5%float], true)].
Proof. vm_compute. reflexivity. Qed.


Example refused_connection_on_the_wire :
  wire (sample_step full_house (Connect 11%nat))
  = wire full_house
    ++ [(11%nat, Sent (FError "Server at maximum capacity")); (11%nat, Closed)].
Proof. vm_compute. reflexivity. Qed.

Lemma malformed_message_dropped_witness :
  sample_step one_client (Receive 1%nat (NotJson "{"))
  = logger (LogWarningProcessing 1%nat JSONDecodeError) one_client
  /\ sample_step one_client (Receive 1%nat unknown_message) = one_client.
Proof.
  unfold sample_step, step, unknown_message.
  split.
  - exact (proj1 (malformed_message_dropped np_array_numbers (vad_const 0.5%float)
                    1%nat (NotJson "{") (Some JSONDecodeError) one_client
                    (drop_not_json _ "{") one_client_streaming one_client_running)).
  - exact (proj1 (malformed_message_dropped np_array_numbers (vad_const 0.5%float)
                    1%nat (Json (JObj [("type"%string, JStr "hello")])) None one_client
                    (drop_unknown_type _ [("type"%string, JStr "hello")] eq_refl eq_refl)
                    one_client_streaming one_client_running)).
Defined.

(** C3, as stated, fails twice.  An object of an unknown type is
    dropped, but no warning is logged: the log is what it was.  And a
    message that decodes to a list ends the session: the handler logs
    the [AttributeError] as an error, leaves its loop and removes the
    client from the registry. *)
Lemma dropped_silently_and_session_lost :
  log (sample_step one_client (Receive 1%nat unknown_message)) = log one_client
  /\ streaming one_client = {[1%nat]}
  /\ _clients (self one_client) = {[1%nat]}
  /\ streaming (sample_step one_client (Receive 1%nat array_message)) = ∅
  /\ _clients (self (sample_step one_client (Receive 1%nat array_message))) = ∅
  /\ log (sample_step one_client (Receive 1%nat array_message))
     = log one_client ++ [LogErrorHandling 1%nat AttributeError].
Proof. vm_compute. repeat split; reflexivity. Qed.

(** An [audio] object whose data is a bare number: numpy builds a 0-d
    array, [len] raises [TypeError], and the session ends as well. *)
Example scalar_audio_ends_session :
  streaming (sample_step one_client (Receive 1%nat scalar_audio_message)) = ∅
  /\ log (sample_step one_client (Receive 1%nat scalar_audio_message))
     = log one_client ++ [LogErrorHandling 1%nat TypeError].
Proof. vm_compute. repeat split; reflexivity. Qed.

(** * Further properties of the module *)

(** ** Joining *)

Lemma handle_client_accept_joined ws w :
  (size (_clients (self w)) < MAX_CLIENTS)%nat ->
  ws ∉ closed w ->
  handle_client_accept ws w = (Joined, joined ws w).
Proof.
  intros Hroom Hopen. unfold handle_client_accept, joined, config_frame. cbn zeta.
  replace (MAX_CLIENTS <=? size (_clients (self (logger (LogInfoConnected ws) w))))%nat
    with false.
  2:{ symmetry. apply Nat.leb_gt. by destruct w. }
  unfold ws_send. rewrite decide_False by (by destruct w). done.
Qed.

Lemma joined_parts ws w :
  _clients (self (joined ws w)) = {[ws]} ∪ _clients (self w)
  /\ streaming (joined ws w) = {[ws]} ∪ streaming w
  /\ wire (joined ws w) = wire w ++ [(ws, Sent config_frame)]
  /\ closed (joined ws w) = closed w
  /\ log (joined ws w) = log w ++ [LogInfoConnected ws].
Proof. by destruct w as [[] ? ? ? ? ? ? ?]. Qed.

(** X1: a connection that arrives below capacity on an open socket joins:
    it is registered, is sent the configuration frame and nothing else,
    and starts reading; queue and playback state are untouched. *)
Theorem connection_joins (ws : websocket) (w : world) :
  (get_connected_clients w < MAX_CLIENTS)%nat ->
  ws ∉ closed w ->
  let '(r, w') := handle_client_accept ws w in
  r = Joined
  /\ _clients (self w') = {[ws]} ∪ _clients (self w)
  /\ streaming w' = {[ws]} ∪ streaming w
  /\ wire w' = wire w ++ [(ws, Sent (FConfig 16000 1024 "float32"))]
  /\ closed w' = closed w
  /\ get_sample_queue w' = get_sample_queue w
  /\ check_if_speaking w' = check_if_speaking w
  /\ tasks w' = tasks w.
Proof.
  intros Hroom Hopen. rewrite handle_client_accept_joined by done.
  by destruct w as [[] ? ? ? ? ? ? ?].
Qed.

Lemma connection_joins_witness :
  fst (handle_client_accept 1%nat (initial_world default_io)) = Joined
  /\ wire (snd (handle_client_accept 1%nat (initial_world default_io)))
     = [(1%nat, Sent (FConfig 16000 1024 "float32"))].
Proof.
  assert (H1 : (get_connected_clients (initial_world default_io) < MAX_CLIENTS)%nat).
  { vm_compute. lia. }
  assert (H2 : 1%nat ∉ closed (initial_world default_io)).
  { refine (bool_decide_unpack _ _). vm_compute. exact I. }
  generalize (connection_joins 1%nat (initial_world default_io) H1 H2).
  destruct (handle_client_accept 1%nat (initial_world default_io)) as [r w'].
  intros (Hr & _ & _ & Hw & _). split; [exact Hr|exact Hw].
Defined.

(** X2: a connection whose socket is already closed when the configuration
    is sent: the send raises, the handler logs the disconnection and
    takes the client out of the registry again; nothing reaches the
    wire and no session reads. *)
Theorem connection_lost_before_config (ws : websocket) (w : world) :
  (get_connected_clients w < MAX_CLIENTS)%nat ->
  ws ∈ closed w ->
  let '(r, w') := handle_client_accept ws w in
  r = Failed ConnectionClosed
  /\ _clients (self w') = _clients (self w) ∖ {[ws]}
  /\ streaming w' = streaming w ∖ {[ws]}
  /\ wire w' = wire w
  /\ log w' = log w ++ [LogInfoConnected ws; LogInfoDisconnected ws].
Proof.
  intros Hroom Hclosed. unfold handle_client_accept. cbn zeta.
  replace (MAX_CLIENTS <=? size (_clients (self (logger (LogInfoConnected ws) w))))%nat
    with false.
  2:{ symmetry. apply Nat.leb_gt. by destruct w. }
  unfold ws_send. rewrite decide_True by (by destruct w).
  unfold handle_client_finally.
  destruct w as [[] ? ? ? ? ? ? ?]; cbn.
  rewrite <- app_assoc. repeat split; try done. set_solver.
Qed.

Lemma connection_lost_before_config_witness :
  fst (handle_client_accept 1%nat
         (session_peer_close 1%nat false (initial_world default_io)))
  = Failed ConnectionClosed
  /\ get_connected_clients
       (snd (handle_client_accept 1%nat
               (session_peer_close 1%nat false (initial_world default_io))))
     = 0%nat.
Proof.
  assert (H1 : (get_connected_clients
                  (session_peer_close 1%nat false (initial_world default_io))
                < MAX_CLIENTS)%nat).
  { vm_compute. lia. }
  assert (H2 : 1%nat ∈ closed (session_peer_close 1%nat false (initial_world default_io))).
  { refine (bool_decide_unpack _ _). vm_compute. exact I. }
  generalize (connection_lost_before_config 1%nat
                (session_peer_close 1%nat false (initial_world default_io)) H1 H2).
  destruct (handle_client_accept 1%nat
              (session_peer_close 1%nat false (initial_world default_io))) as [r w'].
  intros (Hr & Hc & _). split; [exact Hr|].
  unfold get_connected_clients. cbn [snd]. rewrite Hc. vm_compute. reflexivity.
Defined.

(** ** The two paths do not meet *)

Lemma stop_speaking_same_inbound in_loop w :
  same_inbound w (stop_speaking in_loop w)
  /\ same_listening w (stop_speaking in_loop w).
Proof.
  rewrite stop_speaking_spec. destruct (_is_playing (self w)); by repeat split.
Qed.

Lemma start_speaking_same_inbound in_loop audio_data sample_rate text w :
  same_inbound w (snd (start_speaking in_loop audio_data sample_rate text w))
  /\ same_listening w (snd (start_speaking in_loop audio_data sample_rate text w)).
Proof.
  unfold start_speaking.
  destruct audio_data as [| |a]; [by repeat split..|].
  destruct (nd_size a =? 0)%nat; [by repeat split|].
  pose proof (stop_speaking_same_inbound in_loop w)
    as [(Hq & Hv & Hw & Hc & Hs) (Hl & He & Hsv & Ht & Hp)].
  set (w0 := stop_speaking in_loop w) in *. clearbody w0. cbn zeta.
  unfold same_inbound, same_listening.
  rewrite <- Hq, <- Hv, <- Hw, <- Hc, <- Hs, <- Hl, <- He, <- Hsv, <- Ht, <- Hp.
  case_decide; [by repeat split|].
  rewrite broadcast_spec.
  destruct (nd_len a); [destruct (_ =? 0)|]; by repeat split.
Qed.

(** X8: [start_speaking] and [stop_speaking], whatever they are given and
    whether they raise or not, leave the inbound side alone: the sample
    queue, the VAD calls, the frames already on the wire, the closed
    connections and the reading sessions, and the listening flags. *)
Theorem speaking_leaves_inbound_alone (in_loop : bool) (audio_data : pyobject)
    (sample_rate : option Z) (text : string) (w : world) :
  same_inbound w (snd (start_speaking in_loop audio_data sample_rate text w))
  /\ same_listening w (snd (start_speaking in_loop audio_data sample_rate text w))
  /\ same_inbound w (stop_speaking in_loop w)
  /\ same_listening w (stop_speaking in_loop w).
Proof.
  pose proof (start_speaking_same_inbound in_loop audio_data sample_rate text w)
    as [? ?].
  pose proof (stop_speaking_same_inbound in_loop w) as [? ?]. done.
Qed.

Lemma handle_client_finally_frames ws r w :
  let w' := handle_client_finally ws r w in
  keeps_queue w w' /\ same_listening w w' /\ same_playback w w'
  /\ wire w' = wire w /\ closed w' = {[ws]} ∪ closed w
  /\ _clients (self w') = _clients (self w) ∖ {[ws]}
  /\ streaming w' = streaming w ∖ {[ws]}.
Proof. unfold handle_client_finally. destruct r as [|[]]; by repeat split. Qed.

Lemma handle_client_accept_frames ws w :
  let w' := snd (handle_client_accept ws w) in
  keeps_queue w w' /\ same_listening w w' /\ same_playback w w'.
Proof.
  unfold handle_client_accept. cbn zeta.
  destruct (MAX_CLIENTS <=? _)%nat; unfold ws_send; case_decide; cbn [snd];
    try (unfold ws_close; case_decide);
    try (unfold handle_client_finally); by repeat split.
Qed.

Lemma receive_effect_frames vad_model ws w w1 :
  receive_effect vad_model ws w w1 ->
  same_playback w w1 /\ same_listening w w1
  /\ _clients (self w1) = _clients (self w)
  /\ streaming w1 = streaming w
  /\ closed w1 = closed w
  /\ vad_threshold (self w1) = vad_threshold (self w).
Proof. destruct 1; by repeat split. Qed.

Section SessionFacts.

Variable np_array : json -> result ndarray.
Variable vad_model : ndarray -> float.

Local Abbreviation process := (process_message np_array vad_model).
Local Abbreviation handle := (handle_message np_array vad_model).
Local Abbreviation receive := (session_receive np_array vad_model).
Local Abbreviation step1 := (step np_array vad_model).
Local Abbreviation run_from := (run np_array vad_model).
Local Abbreviation effect := (receive_effect vad_model).

Lemma process_message_effect ws m w :
  effect ws w (snd (process ws m w))
  /\ (forall e, fst (process ws m w) = Raise e -> snd (process ws m w) = w).
Proof.
  unfold process_message.
  destruct (json_loads m) as [data|]; [|split; [constructor|done]].
  destruct (py_get data "type") as [ty|]; [|split; [constructor|done]].
  destruct (py_eq_str ty "audio").
  - destruct (py_getitem data "data") as [d|]; [|split; [constructor|done]].
    destruct (np_array d) as [a|]; [|split; [constructor|done]].
    destruct (nd_len a) as [n|] eqn:Hlen; [|split; [constructor|done]].
    destruct n as [|n]; cbn [Nat.ltb Nat.leb snd fst]; [split; [constructor|done]|].
    split; [|done]. exact (effect_queued vad_model ws w a n Hlen).
  - destruct (py_eq_str ty "ping"); [|split; [constructor|done]].
    unfold ws_send. case_decide; cbn [snd fst]; split; try done.
    + constructor.
    + by constructor.
Qed.

Lemma handle_message_effect ws m w :
  effect ws w (snd (handle ws m w))
  /\ (fst (handle ws m w) = Break -> snd (handle ws m w) = w).
Proof.
  unfold handle_message. destruct (_stop_event (self w)); [split; [constructor|done]|].
  pose proof (process_message_effect ws m w) as [Heff Hraise].
  destruct (process ws m w) as [[|e] w1]; cbn [fst snd] in *; [by split|].
  rewrite (Hraise e eq_refl).
  destruct (caught_per_message e); cbn [fst snd]; split; try done; constructor.
Qed.

(** What a message does to the world: the effect of processing it,
    followed, when the loop is left, by the end of the handler. *)
Lemma session_receive_effect ws m w :
  exists w1, effect ws w w1
    /\ (receive ws m w = w1 \/ exists r, receive ws m w = handle_client_finally ws r w1).
Proof.
  unfold session_receive. case_decide; [|exists w; split; [constructor|by left]].
  pose proof (handle_message_effect ws m w) as [Heff _].
  destruct (handle ws m w) as [[| |e] w1]; cbn [snd] in Heff;
    exists w1; (split; [done|]); eauto.
Qed.

Lemma session_receive_frames ws m w :
  same_playback w (receive ws m w) /\ same_listening w (receive ws m w).
Proof.
  destruct (session_receive_effect ws m w) as (w1 & Heff & [->|[r ->]]);
    pose proof (receive_effect_frames _ _ _ _ Heff) as (Hp & Hl & _); [done|].
  pose proof (handle_client_finally_frames ws r w1) as (_ & Hl' & Hp' & _).
  destruct Hp as (? & ? & ?), Hp' as (? & ? & ?),
    Hl as (? & ? & ? & ? & ?), Hl' as (? & ? & ? & ? & ?).
  repeat split; congruence.
Qed.

(** X7: whatever a session receives, the outbound side is left alone:
    playback state, scheduled coroutines and pending timers, and the
    listening flags of the server. *)
Theorem receiving_leaves_playback_alone (ws : websocket) (m : message) (w : world) :
  same_playback w (receive ws m w) /\ same_listening w (receive ws m w).
Proof. exact (session_receive_frames ws m w). Qed.


(** ** Ping, and the stop event *)

(** X4: a [ping] object reaching a reading session: on an open connection
    the whole effect is one [pong] frame written to the sender; on a
    closed connection the send raises [ConnectionClosed], the handler
    logs the disconnection and takes the client out of the registry. *)
Theorem ping_is_answered (ws : websocket) (fields : list (string * json)) (w : world) :
  ws ∈ streaming w ->
  _stop_event (self w) = false ->
  assoc "type" fields = Some (JStr "ping") ->
  let w' := receive ws (Json (JObj fields)) w in
  if decide (ws ∈ closed w)
  then wire w' = wire w
       /\ log w' = log w ++ [LogInfoDisconnected ws]
       /\ _clients (self w') = _clients (self w) ∖ {[ws]}
       /\ streaming w' = streaming w ∖ {[ws]}
       /\ get_sample_queue w' = get_sample_queue w
  else w' = add_wire ws (Sent FPong) w.
Proof.
  intros Hws Hstop Hty. cbn zeta.
  assert (Hrecv : receive ws (Json (JObj fields)) w
                  = match ws_send ws FPong w with
                    | (Ok _, w1) => w1
                    | (Raise e, w1) =>
                        if caught_per_message e
                        then logger (LogWarningProcessing ws e) w1
                        else handle_client_finally ws (Raise e) w1
                    end).
  { unfold session_receive. rewrite (decide_True (P := ws ∈ streaming w)) by done.
    unfold handle_message. rewrite Hstop.
    unfold process_message. cbn [json_loads py_get]. rewrite Hty.
    cbn [py_eq_str]. change ("ping" =? "audio")%string with false.
    change ("ping" =? "ping")%string with true. cbn match.
    destruct (ws_send ws FPong w) as [[|e] w1]; [done|].
    by destruct (caught_per_message e). }
  rewrite Hrecv. unfold ws_send.
  destruct (decide (ws ∈ closed w)); [|done].
  cbn [caught_per_message]. unfold handle_client_finally. by repeat split.
Qed.

(** X5: once the stop event is set, a message reaching a reading session is
    not looked at: nothing is queued, the model is not called, nothing
    is sent or logged; the handler leaves its loop and takes the
    client out of the registry. *)
Theorem stop_event_ends_reading (ws : websocket) (m : message) (w : world) :
  ws ∈ streaming w ->
  _stop_event (self w) = true ->
  let w' := receive ws m w in
  get_sample_queue w' = get_sample_queue w
  /\ vad_calls w' = vad_calls w
  /\ wire w' = wire w
  /\ log w' = log w
  /\ _clients (self w') = _clients (self w) ∖ {[ws]}
  /\ streaming w' = streaming w ∖ {[ws]}.
Proof.
  intros Hws Hstop. cbn zeta.
  unfold session_receive. rewrite decide_True by done.
  unfold handle_message. rewrite Hstop.
  unfold handle_client_finally. by repeat split.
Qed.

(** ** Joining, one after the other *)

Lemma run_cons w e es : run_from w (e :: es) = run_from (step1 w e) es.
Proof. reflexivity. Qed.

(** X3: distinct open connections that fit into the registry all join: the
    registry and the reading sessions grow by exactly these clients,
    and each is sent the configuration frame, in the order of arrival. *)
Theorem all_join_below_capacity (wss : list websocket) (w : world) :
  NoDup wss ->
  (forall ws, ws ∈ wss -> (ws ∉ closed w) /\ (ws ∉ _clients (self w))) ->
  (get_connected_clients w + length wss <= MAX_CLIENTS)%nat ->
  let w' := run_from w (map Connect wss) in
  _clients (self w') = list_to_set wss ∪ _clients (self w)
  /\ get_connected_clients w' = (length wss + get_connected_clients w)%nat
  /\ streaming w' = list_to_set wss ∪ streaming w
  /\ wire w' = wire w ++ map (fun ws => (ws, Sent config_frame)) wss.
Proof.
  cbn zeta. unfold get_connected_clients.
  revert w. induction wss as [|ws wss IH]; intros w Hnd Hfresh Hroom.
  - cbn [map length list_to_set]. unfold run. cbn [fold_left].
    rewrite app_nil_r. repeat split; try done; set_solver.
  - cbn [map]. rewrite run_cons.
    apply NoDup_cons in Hnd as [Hnotin Hnd].
    destruct (Hfresh ws) as [Hopen Hnew]; [set_solver|].
    cbn [length] in Hroom.
    change (step1 w (Connect ws)) with (snd (handle_client_accept ws w)).
    rewrite handle_client_accept_joined by (done || lia). cbn [snd].
    pose proof (joined_parts ws w) as (Hc & Hs & Hw & Hcl & _).
    assert (Hsize : size (_clients (self (joined ws w))) = S (size (_clients (self w)))).
    { rewrite Hc, size_union by set_solver. by rewrite size_singleton. }
    destruct (IH (joined ws w)) as (Hc' & Hn' & Hs' & Hw'); [done| |lia|].
    { intros c Hin. destruct (Hfresh c) as [? ?]; [set_solver|].
      rewrite Hcl, Hc. split; [done|]. set_solver. }
    rewrite Hn', Hsize, Hc', Hs', Hw', Hc, Hs, Hw. cbn [length list_to_set map].
    rewrite <- app_assoc. repeat split; try done; try lia; set_solver.
Qed.

End SessionFacts.

(** ** Starting a playback *)

Ltac world_simpl :=
  autounfold with world;
  cbn [self closed wire tasks timers streaming vad_calls log vad_threshold ws_port
       _sample_queue _is_listening _is_playing _stop_event _ws_server _ws_thread
       _clients fst snd].

(** [start_speaking] past its guard, with the playback stopped and the
    broadcast done: the three ways it can end. *)
Lemma start_speaking_spec in_loop a sample_rate text w :
  nd_size a ≠ 0%nat ->
  let w0 := logger (LogDebugBroadcasting (size (_clients (self (stop_speaking in_loop w)))))
              (stop_speaking in_loop w) in
  let f := FAudioPlayback a (rate_or_default sample_rate) text in
  let wb := with_self (set_clients (after_broadcast in_loop (_clients (self w0))))
              (add_tasks (scheduled_sends in_loop f (_clients (self w0)))
                 (with_self (set_is_playing true) w0)) in
  start_speaking in_loop (PyArray a) sample_rate text w
  = if decide (_clients (self w0) = ∅)
    then (Ok tt, with_self (set_is_playing false)
                   (logger LogWarningNoClients (with_self (set_is_playing true) w0)))
    else match playback_duration a (rate_or_default sample_rate) with
         | Raise e => (Raise e, wb)
         | Ok d => (Ok tt, set_timers (timers wb ++ [d]) wb)
         end.
Proof.
  intros Hsize. cbn zeta. unfold start_speaking, playback_duration, rate_or_default.
  destruct (Nat.eqb_spec (nd_size a) 0) as [|_]; [done|].
  cbn zeta. case_decide as Hempty.
  - rewrite decide_True; done.
  - rewrite decide_False by done. rewrite broadcast_spec.
    destruct (nd_len a); [|done]. by destruct (_ =? 0).
Qed.

Lemma stop_speaking_parts in_loop w :
  let w' := stop_speaking in_loop w in
  _is_playing (self w') = false
  /\ timers w' = timers w
  /\ log w' = log w
  /\ tasks w'
     = tasks w
       ++ (if _is_playing (self w)
           then scheduled_sends in_loop FStopPlayback (_clients (self w)) else [])
  /\ _clients (self w')
     = if _is_playing (self w)
       then after_broadcast in_loop (_clients (self w)) else _clients (self w).
Proof.
  cbn zeta. rewrite stop_speaking_spec.
  destruct (_is_playing (self w)) eqn:Hplay; repeat split; try done.
  by rewrite app_nil_r.
Qed.

Lemma timer_fires_last (d : Q) (ts : list Q) (w1 : world) :
  timers w1 = ts ++ [d] ->
  check_if_speaking (timer_fires (length ts) w1) = false
  /\ timers (timer_fires (length ts) w1) = ts.
Proof.
  intros Ht. unfold timer_fires. rewrite Ht.
  rewrite list_lookup_middle by done.
  unfold _on_playback_complete, check_if_speaking. world_simpl.
  rewrite delete_middle. by rewrite app_nil_r.
Qed.

(** X11: with an event loop, clients in the registry and a duration that can
    be computed, [start_speaking] returns normally and playback is on:
    every client is handed the [audio_playback] frame (after a
    [stop_playback] if something was playing), the registry is as
    before, and one timer for [len / sample_rate] seconds is started;
    when that timer fires the state is idle again. *)
Theorem playback_starts (a : ndarray) (sample_rate : option Z) (text : string)
    (d : Q) (w : world) :
  nd_size a ≠ 0%nat ->
  _clients (self w) ≠ ∅ ->
  playback_duration a (rate_or_default sample_rate) = Ok d ->
  let '(r, w') := start_speaking true (PyArray a) sample_rate text w in
  r = Ok tt
  /\ check_if_speaking w' = true
  /\ _clients (self w') = _clients (self w)
  /\ tasks w'
     = tasks w
       ++ (if _is_playing (self w)
           then scheduled_sends true FStopPlayback (_clients (self w)) else [])
       ++ scheduled_sends true (FAudioPlayback a (rate_or_default sample_rate) text)
            (_clients (self w))
  /\ timers w' = timers w ++ [d]
  /\ check_if_speaking (timer_fires (length (timers w)) w') = false
  /\ timers (timer_fires (length (timers w)) w') = timers w.
Proof.
  intros Hsize Hclients Hd. rewrite start_speaking_spec by done. cbn zeta.
  rewrite Hd.
  pose proof (stop_speaking_parts true w) as (_ & Hti & _ & Hta & Hc).
  cbn zeta in Hti, Hta, Hc.
  assert (Hc' : _clients (self (stop_speaking true w)) = _clients (self w)).
  { rewrite Hc. by destruct (_is_playing (self w)). }
  clear Hc.
  set (ws0 := stop_speaking true w) in *. clearbody ws0.
  rewrite decide_False by (change (_clients (self ws0) ≠ ∅); by rewrite Hc').
  split; [reflexivity|]. split; [reflexivity|].
  split; [change (_clients (self ws0) = _clients (self w)); exact Hc'|].
  assert (Htimers : forall P : world, timers P = timers ws0 ++ [d] ->
                    timers P = timers w ++ [d]) by (intros P ->; by rewrite Hti).
  split.
  { change (tasks ws0
            ++ scheduled_sends true
                 (FAudioPlayback a (rate_or_default sample_rate) text)
                 (_clients (self ws0))
            = tasks w
              ++ (if _is_playing (self w)
                  then scheduled_sends true FStopPlayback (_clients (self w))
                  else [])
              ++ scheduled_sends true
                   (FAudioPlayback a (rate_or_default sample_rate) text)
                   (_clients (self w))).
    by rewrite Hta, Hc', app_assoc. }
  split; [apply Htimers; reflexivity|].
  apply (timer_fires_last d), Htimers. reflexivity.
Qed.

(** X12: called from a thread that runs no event loop, [start_speaking]
    cannot create a single task: no frame is scheduled and every client
    is taken out of the registry.  If nothing was playing, the state is
    playing all the same and the timer is started; if something was
    playing, the registry is already emptied by the [stop_speaking] it
    begins with, and the call ends idle. *)
Theorem off_loop_playback_loses_clients (a : ndarray) (sample_rate : option Z)
    (text : string) (d : Q) (w : world) :
  nd_size a ≠ 0%nat ->
  _clients (self w) ≠ ∅ ->
  playback_duration a (rate_or_default sample_rate) = Ok d ->
  let '(r, w') := start_speaking false (PyArray a) sample_rate text w in
  r = Ok tt
  /\ tasks w' = tasks w
  /\ get_connected_clients w' = 0%nat
  /\ check_if_speaking w' = negb (_is_playing (self w))
  /\ timers w' = timers w ++ (if _is_playing (self w) then [] else [d]).
Proof.
  intros Hsize Hclients Hd. rewrite start_speaking_spec by done. cbn zeta.
  rewrite Hd.
  pose proof (stop_speaking_parts false w) as (_ & Hti & _ & Hta & Hc).
  cbn zeta in Hti, Hta, Hc. unfold scheduled_sends, after_broadcast in Hta, Hc.
  assert (Hta' : tasks (stop_speaking false w) = tasks w).
  { rewrite Hta. destruct (_is_playing (self w)); by rewrite app_nil_r. }
  clear Hta. unfold get_connected_clients.
  set (ws0 := stop_speaking false w) in *. clearbody ws0.
  destruct (_is_playing (self w)).
  - rewrite decide_True by (change (_clients (self ws0) = ∅); exact Hc).
    split; [reflexivity|].
    split; [change (tasks ws0 = tasks w); exact Hta'|].
    split; [change (size (_clients (self ws0)) = 0%nat); by rewrite Hc, size_empty|].
    split; [reflexivity|].
    change (timers ws0 = timers w ++ []). by rewrite app_nil_r.
  - rewrite decide_False by (change (_clients (self ws0) ≠ ∅); by rewrite Hc).
    split; [reflexivity|].
    split; [change (tasks ws0 ++ [] = tasks w); by rewrite app_nil_r|].
    split; [change (size (∅ : gset websocket) = 0%nat); apply size_empty|].
    split; [reflexivity|].
    change (timers ws0 ++ [d] = timers w ++ [d]). by rewrite Hti.
Qed.

(** ** Listening *)

Lemma close_all_spec in_loop cs w :
  close_all in_loop cs w = add_tasks (if in_loop then map TaskClose cs else []) w.
Proof.
  revert w. induction cs as [|c cs IH]; intros w; cbn [close_all].
  - destruct in_loop; by rewrite add_tasks_nil.
  - rewrite IH. unfold create_task. destruct in_loop; cbn [snd map].
    + by rewrite add_tasks_add_tasks.
    + done.
Qed.

(** X14: [stop_listening] on a listening server sets the stop event and
    calls [asyncio.create_task] with one close per registered client: a
    caller with a running event loop schedules them, a caller without
    one silently gives them up.  If the server is up, the statement
    [asyncio.create_task(self._ws_server.close())] then raises out of
    [stop_listening], [RuntimeError] without a running loop and
    [TypeError] with one, before the last log line; only with no server
    the call returns and logs it.  Queue, playback state, timers and
    connections are untouched in every case. *)
Theorem stop_listening_outcome (in_loop : bool) (w : world) :
  _is_listening (self w) = true ->
  let '(r, w') := stop_listening in_loop w in
  r = (if _ws_server (self w)
       then Raise (if in_loop then TypeError else RuntimeError)
       else Ok tt)
  /\ _stop_event (self w') = true
  /\ tasks w' = tasks w ++ scheduled_closes in_loop (_clients (self w))
  /\ log w' = log w ++ (if _ws_server (self w) then [] else [LogInfoStopped])
  /\ keeps_queue w w'
  /\ check_if_speaking w' = check_if_speaking w
  /\ timers w' = timers w
  /\ wire w' = wire w
  /\ closed w' = closed w
  /\ streaming w' = streaming w.
Proof.
  intros Hl. unfold stop_listening. rewrite Hl. cbn [negb]. cbn zeta.
  rewrite close_all_spec. unfold create_task_none, scheduled_closes.
  change (_ws_server (self (with_self (set_clients ∅) _))) with (_ws_server (self w)).
  change (elements (_clients (self (with_self (set_stop_event true) _))))
    with (elements (_clients (self w))).
  destruct (_ws_server (self w)), in_loop;
    repeat split; try reflexivity; world_simpl;
    rewrite ?app_nil_r, <- ?app_assoc; reflexivity.
Qed.

Lemma stop_listening_off in_loop w :
  _is_listening (self (snd (stop_listening in_loop w))) = false.
Proof.
  unfold stop_listening. destruct (_is_listening (self w)) eqn:Hl; [|done].
  cbn [negb]. cbn zeta. rewrite close_all_spec.
  change (_ws_server (self (with_self (set_clients ∅) _))) with (_ws_server (self w)).
  destruct (_ws_server (self w)), in_loop; reflexivity.
Qed.

(** X15: [start_listening] leaves a listening server: a second call changes
    nothing, and a call after [stop_listening] clears the stop event
    again, so that handlers read.  Registry, queue and playback state
    are never touched. *)
Theorem start_listening_restarts (in_loop : bool) (w : world) :
  _is_listening (self (start_listening w)) = true
  /\ start_listening (start_listening w) = start_listening w
  /\ (if _is_listening (self w) then start_listening w = w
      else _stop_event (self (start_listening w)) = false
           /\ _ws_thread (self (start_listening w)) = true)
  /\ _stop_event (self (start_listening (snd (stop_listening in_loop w)))) = false
  /\ _clients (self (start_listening w)) = _clients (self w)
  /\ keeps_queue w (start_listening w)
  /\ same_playback w (start_listening w).
Proof.
  assert (Hon : _is_listening (self (start_listening w)) = true).
  { unfold start_listening. by destruct (_is_listening (self w)) eqn:E. }
  split; [exact Hon|]. split.
  { unfold start_listening at 1. by rewrite Hon. }
  split.
  { unfold start_listening. by destruct (_is_listening (self w)). }
  split.
  { destruct (_is_listening (self w)) eqn:Hl.
    - unfold start_listening. by rewrite stop_listening_off.
    - unfold stop_listening. rewrite Hl. cbn [negb snd].
      unfold start_listening. by rewrite Hl. }
  unfold start_listening. destruct (_is_listening (self w)); by repeat split.
Qed.

(** ** Along a run *)

Lemma timer_fires_frames i w :
  keeps_queue w (timer_fires i w) /\ same_listening w (timer_fires i w).
Proof. unfold timer_fires. destruct (timers w !! i); by repeat split. Qed.

Lemma stop_listening_keeps_queue in_loop w :
  keeps_queue w (snd (stop_listening in_loop w)).
Proof.
  unfold stop_listening. destruct (_is_listening (self w)); [|done].
  cbn [negb]. cbn zeta. rewrite close_all_spec.
  change (_ws_server (self (with_self (set_clients ∅) _))) with (_ws_server (self w)).
  destruct (_ws_server (self w)), in_loop; by split.
Qed.

Lemma stop_listening_playback in_loop w :
  _is_playing (self (snd (stop_listening in_loop w))) = _is_playing (self w)
  /\ timers (snd (stop_listening in_loop w)) = timers w.
Proof.
  unfold stop_listening. destruct (_is_listening (self w)); [|done].
  cbn [negb]. cbn zeta. rewrite close_all_spec.
  change (_ws_server (self (with_self (set_clients ∅) _))) with (_ws_server (self w)).
  destruct (_ws_server (self w)), in_loop; by split.
Qed.

Lemma start_listening_keeps_queue w : keeps_queue w (start_listening w).
Proof. unfold start_listening. by destruct (_is_listening (self w)). Qed.

Section RunFacts.

Variable np_array : json -> result ndarray.
Variable vad_model : ndarray -> float.

Local Abbreviation receive := (session_receive np_array vad_model).
Local Abbreviation step1 := (step np_array vad_model).
Local Abbreviation run_from := (run np_array vad_model).

Lemma session_peer_close_frames ws clean w :
  keeps_queue w (session_peer_close ws clean w)
  /\ same_listening w (session_peer_close ws clean w).
Proof.
  unfold session_peer_close. cbn zeta. case_decide; [|by repeat split].
  unfold handle_client_finally. destruct clean; by repeat split.
Qed.

Lemma session_peer_close_playback ws clean w :
  same_playback w (session_peer_close ws clean w).
Proof.
  unfold session_peer_close. cbn zeta. case_decide; [|by repeat split].
  unfold handle_client_finally. destruct clean; by repeat split.
Qed.

Lemma run_task_frames i w :
  keeps_queue w (run_task i w) /\ same_listening w (run_task i w).
Proof.
  unfold run_task. destruct (tasks w !! i) as [[ws f|ws]|]; [| |by repeat split].
  - unfold ws_send. case_decide; by repeat split.
  - unfold ws_close. case_decide; by repeat split.
Qed.

Lemma run_task_playback i w :
  _is_playing (self (run_task i w)) = _is_playing (self w)
  /\ timers (run_task i w) = timers w.
Proof.
  unfold run_task. destruct (tasks w !! i) as [[ws f|ws]|]; [| |by split].
  - unfold ws_send. case_decide; by split.
  - unfold ws_close. case_decide; by split.
Qed.

(** What one step adds to the queue. *)
Lemma step_queue w e :
  exists added,
    _sample_queue (self (step1 w e)) = _sample_queue (self w) ++ added
    /\ vad_calls (step1 w e)
       = vad_calls w ++ map (fun entry => expand_dims0 (fst entry)) added
    /\ forallb (well_queued vad_model (vad_threshold (self w))) added = true.
Proof.
  assert (Hkeep : forall w', keeps_queue w w' ->
    exists added,
      _sample_queue (self w') = _sample_queue (self w) ++ added
      /\ vad_calls w' = vad_calls w ++ map (fun entry => expand_dims0 (fst entry)) added
      /\ forallb (well_queued vad_model (vad_threshold (self w))) added = true).
  { intros w' [Hq Hv]. exists []. cbn [map forallb]. by rewrite !app_nil_r. }
  destruct e; cbn [step].
  - apply Hkeep, handle_client_accept_frames.
  - destruct (session_receive_effect np_array vad_model ws m w)
      as (w1 & Heff & Hrecv).
    assert (Hsame : keeps_queue w1 (receive ws m w)).
    { destruct Hrecv as [->|[r ->]]; [done|]. apply handle_client_finally_frames. }
    destruct Hsame as [-> ->].
    destruct Heff as [|e| |a n Hlen]; try (by apply Hkeep).
    exists [(a, PrimFloat.ltb (vad_threshold (self w)) (vad_model (expand_dims0 a)))].
    split; [reflexivity|]. split; [reflexivity|].
    cbn [forallb]. unfold well_queued. cbn [fst snd]. rewrite Hlen.
    by rewrite eqb_reflx.
  - apply Hkeep, session_peer_close_frames.
  - apply Hkeep, run_task_frames.
  - apply Hkeep. destruct (_ws_thread (self w)); by split.
  - apply Hkeep, timer_fires_frames.
  - apply Hkeep, start_listening_keeps_queue.
  - apply Hkeep, stop_listening_keeps_queue.
  - apply Hkeep.
    destruct (start_speaking_same_inbound in_loop audio_data sample_rate text w)
      as [(? & ? & _) _]. by split.
  - apply Hkeep.
    destruct (stop_speaking_same_inbound in_loop w) as [(? & ? & _) _]. by split.
Qed.

(** X9: whatever happens to a server, its sample queue only grows, at its
    end: no entry is dropped, changed or reordered by the module.
    Every entry added is a chunk with a positive length, flagged with
    [score > threshold] for the threshold of the server, and the VAD
    model is called exactly once per added entry, in the same order. *)
Theorem queue_only_grows (w : world) (es : list event) :
  exists added,
    get_sample_queue (run_from w es) = get_sample_queue w ++ added
    /\ vad_calls (run_from w es)
       = vad_calls w ++ map (fun entry => expand_dims0 (fst entry)) added
    /\ forallb (well_queued vad_model (vad_threshold (self w))) added = true.
Proof.
  unfold get_sample_queue. revert w.
  induction es as [|e es IH]; intros w.
  - exists []. cbn [map forallb]. unfold run. cbn [fold_left].
    by rewrite !app_nil_r.
  - change (run_from w (e :: es)) with (run_from (step1 w e) es).
    destruct (step_queue w e) as (first & Hq & Hv & Hok).
    destruct (IH (step1 w e)) as (rest & Hq' & Hv' & Hok').
    destruct (step_clients np_array vad_model w e) as [Hthr _].
    rewrite Hthr in Hok'.
    exists (first ++ rest).
    rewrite Hq', Hv', Hq, Hv, map_app, forallb_app, Hok, Hok', <- !app_assoc.
    done.
Qed.

(** One step keeps a listening server's stop event cleared. *)
Lemma step_listening w e :
  _is_listening (self w) && _stop_event (self w) = false ->
  _is_listening (self (step1 w e)) && _stop_event (self (step1 w e)) = false.
Proof.
  intros Hw.
  assert (Hsame : forall w', same_listening w w' ->
            _is_listening (self w') && _stop_event (self w') = false).
  { intros w' (-> & -> & _). exact Hw. }
  destruct e; cbn [step].
  - apply Hsame, handle_client_accept_frames.
  - apply Hsame, session_receive_frames.
  - apply Hsame, session_peer_close_frames.
  - apply Hsame, run_task_frames.
  - destruct (_ws_thread (self w)); exact Hw.
  - apply Hsame, timer_fires_frames.
  - unfold start_listening. destruct (_is_listening (self w)) eqn:Hl; [by rewrite Hl|].
    reflexivity.
  - by rewrite stop_listening_off.
  - apply Hsame, start_speaking_same_inbound.
  - apply Hsame, stop_speaking_same_inbound.
Qed.

(** X10: on every world a constructed server gets into, listening and a set
    stop event exclude each other: while the server is listening, its
    handlers process the messages they receive. *)
Theorem listening_server_reads (t : option float) (p : option Z) (io : RemoteAudioIO)
    (es : list event) :
  __init__ t p = Ok io ->
  _is_listening (self (run_from (initial_world io) es))
  && _stop_event (self (run_from (initial_world io) es)) = false.
Proof.
  intros Hinit.
  assert (H0 : _is_listening (self (initial_world io))
               && _stop_event (self (initial_world io)) = false).
  { unfold __init__ in Hinit. destruct (negb _); [done|]. by injection Hinit as <-. }
  revert H0. generalize (initial_world io). clear Hinit.
  induction es as [|e es IH]; intros w Hw; [exact Hw|].
  change (run_from w (e :: es)) with (run_from (step1 w e) es).
  apply IH, step_listening, Hw.
Qed.

(** ** A playback without a timer *)

(** With no timer pending, only the playback methods change the
    playback state, and no timer appears. *)
Lemma step_playing w e :
  is_speaking_call e = false ->
  timers w = [] ->
  _is_playing (self (step1 w e)) = _is_playing (self w) /\ timers (step1 w e) = [].
Proof.
  intros He Ht.
  assert (Hsame : forall w', same_playback w w' ->
            _is_playing (self w') = _is_playing (self w) /\ timers w' = []).
  { intros w' (Hp & _ & Hti). split; [exact Hp|by rewrite Hti]. }
  destruct e; cbn [step]; try discriminate He.
  - apply Hsame, handle_client_accept_frames.
  - apply Hsame, session_receive_frames.
  - apply Hsame, session_peer_close_playback.
  - destruct (run_task_playback i w) as [Hp Hti]. split; [exact Hp|by rewrite Hti].
  - apply Hsame. destruct (_ws_thread (self w)); by repeat split.
  - unfold timer_fires. rewrite Ht. by split.
  - apply Hsame. unfold start_listening. destruct (_is_listening (self w)); by repeat split.
  - destruct (stop_listening_playback in_loop w) as [Hp Hti].
    split; [exact Hp|by rewrite Hti].
Qed.

Lemma run_playing w es :
  forallb (fun e => negb (is_speaking_call e)) es = true ->
  timers w = [] ->
  _is_playing (self (run_from w es)) = _is_playing (self w).
Proof.
  revert w. induction es as [|e es IH]; intros w Hes Ht; [reflexivity|].
  cbn [forallb] in Hes. apply andb_true_iff in Hes as [He Hes].
  apply negb_true_iff in He.
  change (run_from w (e :: es)) with (run_from (step1 w e) es).
  destruct (step_playing w e He Ht) as [Hp Ht'].
  rewrite IH by done. exact Hp.
Qed.

(** X13: when the duration cannot be computed, because the array is 0-d or
    the sample rate is 0, [start_speaking] raises only after it has
    switched the state to playing and handed the frame to
    [asyncio.create_task] for every client; the call starts no timer.
    If no timer of an earlier playback is pending either, the state
    stays playing whatever happens next, until one of the playback
    methods is called. *)
Theorem playback_without_timer (in_loop : bool) (a : ndarray)
    (sample_rate : option Z) (text : string) (e : exn) (w : world) :
  nd_size a ≠ 0%nat ->
  _clients (self w) ≠ ∅ ->
  in_loop || negb (_is_playing (self w)) = true ->
  playback_duration a (rate_or_default sample_rate) = Raise e ->
  let '(r, w') := start_speaking in_loop (PyArray a) sample_rate text w in
  r = Raise e
  /\ (e = TypeError \/ e = ZeroDivisionError)
  /\ check_if_speaking w' = true
  /\ tasks w'
     = tasks w
       ++ (if _is_playing (self w)
           then scheduled_sends in_loop FStopPlayback (_clients (self w)) else [])
       ++ scheduled_sends in_loop (FAudioPlayback a (rate_or_default sample_rate) text)
            (_clients (self w))
  /\ _clients (self w') = after_broadcast in_loop (_clients (self w))
  /\ timers w' = timers w
  /\ (timers w = [] ->
      forall es, forallb (fun e => negb (is_speaking_call e)) es = true ->
                 check_if_speaking (run_from w' es) = true).
Proof.
  intros Hsize Hclients Hctx Hd. rewrite start_speaking_spec by done. cbn zeta.
  rewrite Hd.
  pose proof (stop_speaking_parts in_loop w) as (_ & Hti & _ & Hta & Hc).
  cbn zeta in Hti, Hta, Hc.
  assert (Hc' : _clients (self (stop_speaking in_loop w)) = _clients (self w)).
  { rewrite Hc. destruct (_is_playing (self w)), in_loop; done. }
  clear Hc. set (ws0 := stop_speaking in_loop w) in *. clearbody ws0.
  rewrite decide_False by (change (_clients (self ws0) ≠ ∅); by rewrite Hc').
  split; [reflexivity|]. split.
  { unfold playback_duration, nd_len in Hd.
    destruct (nd_shape a); [left; congruence|].
    destruct (_ =? 0); [right; congruence|discriminate]. }
  split; [reflexivity|].
  split.
  { change (tasks ws0
            ++ scheduled_sends in_loop
                 (FAudioPlayback a (rate_or_default sample_rate) text)
                 (_clients (self ws0))
            = tasks w
              ++ (if _is_playing (self w)
                  then scheduled_sends in_loop FStopPlayback (_clients (self w))
                  else [])
              ++ scheduled_sends in_loop
                   (FAudioPlayback a (rate_or_default sample_rate) text)
                   (_clients (self w))).
    by rewrite Hta, Hc', app_assoc. }
  split.
  { change (after_broadcast in_loop (_clients (self ws0))
            = after_broadcast in_loop (_clients (self w))). by rewrite Hc'. }
  split; [exact Hti|].
  intros Hnone es Hes. unfold check_if_speaking.
  rewrite run_playing; [reflexivity|exact Hes|].
  change (timers ws0 = []). by rewrite Hti.
Qed.

End RunFacts.

(** ** The factory *)

(** X16: [get_audio_system] with the backend ["remote"] builds the server
    exactly when the threshold (0.8 if none is given) lies in [0,1],
    and raises [ValueError] otherwise; the server has that threshold,
    listens on the port given as [ws_port], on 8765 when the keyword is
    missing or [None], and starts idle, not listening, with an empty
    registry and queue.  A backend name other than ["sounddevice"] and
    ["remote"] raises [ValueError]. *)
Theorem get_audio_system_remote (SD : Type) (SoundDeviceAudioIO : option float -> result SD)
    (vad_threshold : option float) (kwargs : gmap string (option Z)) :
  get_audio_system SD SoundDeviceAudioIO "remote" vad_threshold kwargs
  = (let t := match vad_threshold with Some t => t | None => VAD_THRESHOLD end in
     let port := match kwargs !! "ws_port"%string with
                 | Some (Some port) => port
                 | _ => 8765
                 end in
     if in_unit_interval t
     then Ok (RemoteBackend (mk_io t port [] false false false false false ∅))
     else Raise ValueError)
  /\ (forall backend_type,
        backend_type ≠ "sounddevice"%string ->
        backend_type ≠ "remote"%string ->
        get_audio_system SD SoundDeviceAudioIO backend_type vad_threshold kwargs
        = Raise ValueError).
Proof.
  split.
  - unfold get_audio_system, __init__, in_unit_interval.
    change ("remote" =? "sounddevice")%string with false.
    change ("remote" =? "remote")%string with true. cbn match. cbn zeta.
    destruct (kwargs !! "ws_port"%string) as [[port|]|];
      destruct (PrimFloat.leb 0 _ && PrimFloat.leb _ 1); reflexivity.
  - intros backend_type Hsd Hremote. unfold get_audio_system.
    destruct (String.eqb_spec backend_type "sounddevice"); [done|].
    destruct (String.eqb_spec backend_type "remote"); done.
Qed.

(** ** The further properties on concrete worlds *)

Lemma one_client_open : 1%nat ∉ closed one_client.
Proof. refine (bool_decide_unpack _ _). vm_compute. exact I. Qed.

Lemma one_client_registered : _clients (self one_client) ≠ ∅.
Proof. refine (bool_decide_unpack _ _). vm_compute. exact I. Qed.

Lemma ping_is_answered_witness :
  sample_step one_client (Receive 1%nat ping_message)
  = add_wire 1%nat (Sent FPong) one_client.
Proof.
  unfold sample_step, step, ping_message.
  pose proof (ping_is_answered np_array_numbers (vad_const 0.5%float) 1%nat
                [("type"%string, JStr "ping")] one_client
                one_client_streaming one_client_running eq_refl) as H.
  cbn zeta in H. rewrite (decide_False (P := 1%nat ∈ closed one_client)) in H
    by exact one_client_open.
  exact H.
Defined.

Lemma stop_event_ends_reading_witness :
  get_sample_queue (sample_step stopping (Receive 1%nat (audio_message [0.5%float])))
  = get_sample_queue stopping
  /\ vad_calls (sample_step stopping (Receive 1%nat (audio_message [0.5%float])))
     = vad_calls stopping.
Proof.
  unfold sample_step, step.
  assert (Hs : 1%nat ∈ streaming stopping).
  { refine (bool_decide_unpack _ _). vm_compute. exact I. }
  assert (He : _stop_event (self stopping) = true) by (vm_compute; reflexivity).
  pose proof (stop_event_ends_reading np_array_numbers (vad_const 0.5%float) 1%nat
                (audio_message [0.5%float]) stopping Hs He) as (Hq & Hv & _).
  split; [exact Hq|exact Hv].
Defined.

Lemma all_join_below_capacity_witness :
  get_connected_clients
    (sample_run (initial_world default_io) (map Connect [1%nat; 2%nat; 3%nat]))
  = (length [1%nat; 2%nat; 3%nat] + get_connected_clients (initial_world default_io))%nat.
Proof.
  unfold sample_run.
  assert (Hnd : NoDup [1%nat; 2%nat; 3%nat]).
  { refine (bool_decide_unpack _ _). vm_compute. exact I. }
  assert (Hfresh : forall ws, ws ∈ [1%nat; 2%nat; 3%nat] ->
            (ws ∉ closed (initial_world default_io))
            /\ (ws ∉ _clients (self (initial_world default_io)))).
  { intros ws _. cbn [initial_world closed self default_io _clients]. set_solver. }
  assert (Hroom : (get_connected_clients (initial_world default_io)
                   + length [1%nat; 2%nat; 3%nat] <= MAX_CLIENTS)%nat).
  { vm_compute. lia. }
  exact (proj1 (proj2 (all_join_below_capacity np_array_numbers (vad_const 0.5%float)
                         [1%nat; 2%nat; 3%nat] (initial_world default_io)
                         Hnd Hfresh Hroom))).
Defined.

Lemma clip3_not_empty : nd_size clip3 ≠ 0%nat.
Proof. vm_compute. lia. Qed.

Lemma playback_starts_witness :
  fst (start_speaking true (PyArray clip3) (Some 1) "" one_client) = Ok tt
  /\ timers (snd (start_speaking true (PyArray clip3) (Some 1) "" one_client))
     = timers one_client ++ [3 # 1]%Q.
Proof.
  generalize (playback_starts clip3 (Some 1) "" (3 # 1)%Q one_client
                clip3_not_empty one_client_registered eq_refl).
  destruct (start_speaking true (PyArray clip3) (Some 1) "" one_client) as [r w'].
  intros (Hr & _ & _ & _ & Ht & _). split; [exact Hr|exact Ht].
Defined.

Lemma off_loop_playback_loses_clients_witness :
  fst (start_speaking false (PyArray clip3) (Some 1) "" one_client) = Ok tt
  /\ get_connected_clients
       (snd (start_speaking false (PyArray clip3) (Some 1) "" one_client))
     = 0%nat.
Proof.
  generalize (off_loop_playback_loses_clients clip3 (Some 1) "" (3 # 1)%Q one_client
                clip3_not_empty one_client_registered eq_refl).
  destruct (start_speaking false (PyArray clip3) (Some 1) "" one_client) as [r w'].
  intros (Hr & _ & Hc & _). split; [exact Hr|exact Hc].
Defined.

Lemma one_client_idle : _is_playing (self one_client) = false.
Proof. vm_compute. reflexivity. Qed.

Lemma playback_without_timer_witness :
  fst (start_speaking true (PyArray clip3) (Some 0) "" one_client)
  = Raise ZeroDivisionError
  /\ check_if_speaking (snd (start_speaking true (PyArray clip3) (Some 0) "" one_client))
     = true
  /\ check_if_speaking
       (sample_run (snd (start_speaking true (PyArray clip3) (Some 0) "" one_client))
          [RunTask 0; Receive 1%nat ping_message; Connect 2%nat])
     = true
  /\ fst (start_speaking true (PyArray scalar_clip) None "" one_client)
     = Raise TypeError.
Proof.
  unfold sample_run.
  assert (Hctx : true || negb (_is_playing (self one_client)) = true) by reflexivity.
  assert (Hscalar : nd_size scalar_clip ≠ 0%nat) by (vm_compute; lia).
  assert (Hnone : timers one_client = []) by (vm_compute; reflexivity).
  generalize (playback_without_timer np_array_numbers (vad_const 0.5%float)
                true clip3 (Some 0) "" ZeroDivisionError one_client
                clip3_not_empty one_client_registered Hctx eq_refl).
  generalize (playback_without_timer np_array_numbers (vad_const 0.5%float)
                true scalar_clip None "" TypeError one_client
                Hscalar one_client_registered Hctx eq_refl).
  destruct (start_speaking true (PyArray clip3) (Some 0) "" one_client) as [r w'].
  destruct (start_speaking true (PyArray scalar_clip) None "" one_client) as [r2 w2].
  intros (Hr2 & _) (Hr & _ & Hp & _ & _ & _ & Hrun).
  split; [exact Hr|]. split; [exact Hp|].
  split; [|exact Hr2].
  exact (Hrun Hnone [RunTask 0; Receive 1%nat ping_message; Connect 2%nat] eq_refl).
Defined.

Lemma one_client_listening : _is_listening (self one_client) = true.
Proof. vm_compute. reflexivity. Qed.

Lemma one_client_server_up : _ws_server (self one_client) = true.
Proof. vm_compute. reflexivity. Qed.

Lemma stop_listening_outcome_witness :
  fst (stop_listening false one_client) = Raise RuntimeError
  /\ fst (stop_listening true one_client) = Raise TypeError
  /\ _stop_event (self (snd (stop_listening false one_client))) = true
  /\ log (snd (stop_listening true one_client)) = log one_client ++ [].
Proof.
  generalize (stop_listening_outcome false one_client one_client_listening).
  generalize (stop_listening_outcome true one_client one_client_listening).
  rewrite one_client_server_up.
  destruct (stop_listening true one_client) as [r1 w1].
  destruct (stop_listening false one_client) as [r2 w2].
  intros (Hr1 & _ & _ & Hl & _) (Hr2 & He & _).
  split; [exact Hr2|]. split; [exact Hr1|]. split; [exact He|exact Hl].
Defined.

(** With no server yet, [stop_listening] returns and logs. *)
Example stop_listening_before_server_is_up :
  let w := sample_run (initial_world default_io) [CallStartListening; Connect 1%nat] in
  fst (stop_listening true w) = Ok tt
  /\ tasks (snd (stop_listening true w)) = [TaskClose 1%nat]
  /\ log (snd (stop_listening true w)) = log w ++ [LogInfoStopped]
  /\ fst (stop_listening false w) = Ok tt
  /\ tasks (snd (stop_listening false w)) = [].
Proof. vm_compute. repeat split; reflexivity. Qed.

Lemma listening_server_reads_witness :
  _is_listening (self one_client) && _stop_event (self one_client) = false.
Proof.
  unfold one_client, sample_run.
  exact (listening_server_reads np_array_numbers (vad_const 0.5%float) None None
           default_io [CallStartListening; ServerUp; Connect 1%nat] eq_refl).
Defined.

Lemma start_speaking_accepts_witness :
  rejected_input (PyArray ints3) = false
  /\ fst (start_speaking true (PyArray ints3) None "" one_client) ≠ Raise ValueError.
Proof.
  split; [reflexivity|].
  exact (start_speaking_accepts true ints3 None "" one_client eq_refl).
Defined.

Lemma non_object_json_ends_session_witness :
  handle_message np_array_numbers (vad_const 0.5%float) 1%nat array_message one_client
  = (Escape AttributeError, one_client)
  /\ log (sample_step one_client (Receive 1%nat array_message))
     = log one_client ++ [LogErrorHandling 1%nat AttributeError].
Proof.
  unfold array_message, sample_step, step.
  assert (Hv : forall fields, JArr [] ≠ JObj fields) by (intros fields; discriminate).
  pose proof (non_object_json_ends_session np_array_numbers (vad_const 0.5%float)
                1%nat (JArr []) one_client Hv
                one_client_streaming one_client_running) as (H1 & H2 & _).
  split; [exact H1|exact H2].
Defined.

(** Text nested deeper than the interpreter allows: [json.loads] raises
    [RecursionError], which the per-message clause does not catch; the
    handler logs the error and the session ends. *)
Example deep_nesting_ends_session :
  handle_message np_array_numbers (vad_const 0.5%float) 1%nat (TooDeep deep_text)
    one_client
  = (Escape RecursionError, one_client)
  /\ streaming (sample_step one_client (Receive 1%nat (TooDeep deep_text))) = ∅
  /\ _clients (self (sample_step one_client (Receive 1%nat (TooDeep deep_text)))) = ∅
  /\ log (sample_step one_client (Receive 1%nat (TooDeep deep_text)))
     = log one_client ++ [LogErrorHandling 1%nat RecursionError].
Proof. repeat split; reflexivity. Qed.

(** The other failures of [json.loads] are [ValueError]s and only cost
    the message. *)
Example undecodable_bytes_are_dropped :
  sample_step one_client (Receive 1%nat (NotUnicode [255; 254; 253]))
  = logger (LogWarningProcessing 1%nat UnicodeDecodeError) one_client.
Proof. reflexivity. Qed.
